(** * redsm5: corpus statistics over annotated posts

    A shallow embedding of [src/analysis/statistics.py] and proofs about
    its three stages: the post loader ([load_full_posts]), the annotation
    aggregator ([load_annotations]) and the reporter ([print_statistics],
    [print_symptom_distribution]), composed by [main].

    Conventions of the embedding:
    - a Python [str] is a [string]; each character stands for one code
      point below 256;
    - a Python [int] is a [Z];
    - a Python [float] is the rational it denotes (a [Q] in lowest terms).
      Only finite, non-negative floats arise here, and every quotient of
      two container sizes lies in the normal range of binary64, so
      overflow and subnormal numbers are left out;
    - a [dict] is an association list in insertion order with unique keys;
    - a [set] of strings is a [gset string]; its iteration order is the
      order of [elements], about which the proofs assume nothing beyond
      "every member once";
    - the CSV parser is outside the model: a file is the list of its rows. *)

From Stdlib Require Import ZArith QArith Lia Ascii.
From stdpp Require Import gmap strings list pretty sorting.

Local Open Scope Z_scope.
Set Warnings "-clear-no-such-hyp".

(** ** Python numbers *)

Module PyNum.

(** Nearest integer to [n / d] for [d > 0], ties to the even neighbour. *)
Definition round_half_even (n d : Z) : Z :=
  let q := n / d in
  let r := n mod d in
  if 2 * r <? d then q
  else if d <? 2 * r then q + 1
  else if Z.even q then q else q + 1.

(** [m * 2 ^ e] as a rational in lowest terms. *)
Definition scale2 (m e : Z) : Q :=
  if 0 <=? e then inject_Z (m * 2 ^ e) else Qred (Qmake m (Z.to_pos (2 ^ (- e)))).

(** [floor (log2 (n / d))] for [n > 0] and [d > 0]. *)
Definition ilog2_ratio (n d : Z) : Z :=
  let e0 := Z.log2 n - Z.log2 d in
  if d * 2 ^ Z.max 0 e0 <=? n * 2 ^ Z.max 0 (- e0) then e0 else e0 - 1.

(** The binary64 number nearest to [n / d] (53 significant bits, ties to
    even), for [n >= 0] and [d > 0]. *)
Definition binary64_of_ratio (n d : Z) : Q :=
  if n =? 0 then 0%Q
  else
    let sh := ilog2_ratio n d - 52 in
    let m := round_half_even (n * 2 ^ Z.max 0 (- sh)) (d * 2 ^ Z.max 0 sh) in
    scale2 m sh.

(** [a / b] on two ints ([long_true_divide]): the correctly rounded
    quotient.  The sign is handled by symmetry; [b] is not zero. *)
Definition int_true_divide (a b : Z) : Q :=
  let q := binary64_of_ratio (Z.abs a) (Z.abs b) in
  if Z.sgn a * Z.sgn b <? 0 then Qopp q else q.

(** [float(z)]. *)
Definition float_of_int (z : Z) : Q := int_true_divide z 1.

(** The value of an expression that is an int on one path and a float on
    another. *)
Inductive py_num : Type :=
  | PyInt (z : Z)
  | PyFloat (x : Q).

Definition as_float (v : py_num) : Q :=
  match v with
  | PyInt z => float_of_int z
  | PyFloat x => x
  end.

Definition num_value (v : py_num) : Q :=
  match v with
  | PyInt z => inject_Z z
  | PyFloat x => x
  end.

(** *** Rendering *)

Definition digit_char (d : Z) : ascii :=
  ascii_of_nat (48 + Z.to_nat d).

(** [str(z)] for an int. *)
Definition int_str (z : Z) : string := pretty z.

Definition two_digits (r : Z) : string :=
  String (digit_char (r / 10)) (String (digit_char (r mod 10)) "").

(** [format(x, ".2f")] for a float: the exact value rounded to hundredths,
    ties to even. *)
Definition format_2f_float (x : Q) : string :=
  let r := round_half_even (Z.abs (Qnum x) * 100) (Zpos (Qden x)) in
  (if Qnum x <? 0 then "-" else "") +:+ int_str (r / 100) +:+ "." +:+ two_digits (r mod 100).

(** [f"{v:.2f}"]: an int is converted to float first. *)
Definition format_2f (v : py_num) : string := format_2f_float (as_float v).

(** *** [str] of a float

    [repr] prints the shortest decimal string that reads back as the same
    binary64 number, the nearest to it among the shortest ones; in
    positional notation when the decimal point falls within the first 16
    digits and no further than three zeros to the left, else in exponent
    notation. *)

Fixpoint ilog10_up (fuel : nat) (n d k : Z) : Z :=
  match fuel with
  | O => k
  | S f => if 10 ^ (k + 1) * d <=? n then ilog10_up f n d (k + 1) else k
  end.

Fixpoint ilog10_down (fuel : nat) (n d k : Z) : Z :=
  match fuel with
  | O => k
  | S f => if d <=? n * 10 ^ (- k) then k else ilog10_down f n d (k - 1)
  end.

(** [floor (log10 (n / d))] for [n > 0] and [d > 0]. *)
Definition ilog10_ratio (n d : Z) : Z :=
  if d <=? n then ilog10_up (S (Z.to_nat (Z.log2 n))) n d 0
  else ilog10_down (S (Z.to_nat (Z.log2 d))) n d (-1).

(** Does the decimal [c * 10 ^ e10] read back as the float [n / d]? *)
Definition reads_back (n d c e10 : Z) : bool :=
  Qeq_bool (binary64_of_ratio (c * 10 ^ Z.max 0 e10) (10 ^ Z.max 0 (- e10)))
           (Qmake n (Z.to_pos d)).

(** The [p]-digit decimal for [n / d], if one reads back: the significand
    and the power of ten it is scaled by. *)
Definition digits_at (n d k : Z) (p : Z) : option (Z * Z) :=
  let e10 := k - p + 1 in
  let N := n * 10 ^ Z.max 0 (- e10) in
  let D := d * 10 ^ Z.max 0 e10 in
  let lo := N / D in
  let hi := lo + 1 in
  let below := N - lo * D in
  let above := hi * D - N in
  match reads_back n d lo e10, reads_back n d hi e10 with
  | true, true =>
      if below <? above then Some (lo, e10)
      else if above <? below then Some (hi, e10)
      else Some (if Z.even lo then lo else hi, e10)
  | true, false => Some (lo, e10)
  | false, true => Some (hi, e10)
  | false, false => None
  end.

Fixpoint shortest_digits (fuel : nat) (n d k p : Z) : Z * Z :=
  match fuel with
  | O => (0, 0)
  | S f =>
      match digits_at n d k p with
      | Some r => r
      | None => shortest_digits f n d k (p + 1)
      end
  end.

Fixpoint strip_zeros (fuel : nat) (c e10 : Z) : Z * Z :=
  match fuel with
  | O => (c, e10)
  | S f => if (c mod 10 =? 0) && (0 <? c) then strip_zeros f (c / 10) (e10 + 1) else (c, e10)
  end.

Definition zeros (n : Z) : string := String.concat "" (replicate (Z.to_nat n) "0").

Definition string_take (n : Z) (s : string) : string :=
  String.substring 0 (Z.to_nat n) s.

Definition string_drop (n : Z) (s : string) : string :=
  String.substring (Z.to_nat n) (String.length s - Z.to_nat n) s.

Definition exponent_str (e : Z) : string :=
  (if e <? 0 then "-" else "+") +:+
  (if Z.abs e <? 10 then "0" else "") +:+ int_str (Z.abs e).

(** [repr] of a positive float [n / d]. *)
Definition float_repr_pos (n d : Z) : string :=
  let k := ilog10_ratio n d in
  let '(c0, e0) := shortest_digits 17 n d k 1 in
  let '(c, e10) := strip_zeros 17 c0 e0 in
  let ds := int_str c in
  let len := Z.of_nat (String.length ds) in
  let decpt := len + e10 in
  if (decpt <=? -4) || (16 <? decpt) then
    string_take 1 ds +:+ (if 1 <? len then "." +:+ string_drop 1 ds else "")
    +:+ "e" +:+ exponent_str (decpt - 1)
  else if decpt <=? 0 then "0." +:+ zeros (- decpt) +:+ ds
  else if len <=? decpt then ds +:+ zeros (decpt - len) +:+ ".0"
  else string_take decpt ds +:+ "." +:+ string_drop decpt ds.

(** [str(x)] for a float. *)
Definition float_str (x : Q) : string :=
  if Qnum x =? 0 then "0.0"
  else (if Qnum x <? 0 then "-" else "") +:+ float_repr_pos (Z.abs (Qnum x)) (Zpos (Qden x)).

(** [f"{v}"]. *)
Definition py_str (v : py_num) : string :=
  match v with
  | PyInt z => int_str z
  | PyFloat x => float_str x
  end.

End PyNum.

(** ** Python containers *)

(** A [dict] with string keys: an association list in insertion order in
    which no key occurs twice. *)
Module PyDict.
Section Dict.
Context {V : Type}.

(** [d.get(k)] *)
Fixpoint get (k : string) (d : list (string * V)) : option V :=
  match d with
  | [] => None
  | (k', v) :: d' => if decide (k' = k) then Some v else get k d'
  end.

(** [d[k] = v]: an existing key keeps its position, a new key goes last. *)
Fixpoint set (k : string) (v : V) (d : list (string * V)) : list (string * V) :=
  match d with
  | [] => [(k, v)]
  | (k', v') :: d' =>
      if decide (k' = k) then (k, v) :: d' else (k', v') :: set k v d'
  end.

(** [list(d.keys())] and [d.values()] *)
Definition keys (d : list (string * V)) : list string := d.*1.
Definition values (d : list (string * V)) : list V := d.*2.

(** [d[k]] on a [defaultdict] whose factory returns [dflt]: a missing key
    is first stored with the default value. *)
Definition getitem_default (dflt : V) (k : string) (d : list (string * V))
  : V * list (string * V) :=
  match get k d with
  | Some v => (v, d)
  | None => (dflt, set k dflt d)
  end.

(** The value a lookup that supplies the default sees. *)
Definition get_or (dflt : V) (k : string) (d : list (string * V)) : V :=
  default dflt (get k d).

(** The dict after [d[k]] was evaluated for every [k] of [ks] in turn. *)
Definition touch_all (dflt : V) (ks : list string) (d : list (string * V))
  : list (string * V) :=
  fold_left (fun d k => (getitem_default dflt k d).2) ks d.
End Dict.
End PyDict.

(** [collections.Counter]: a dict of counts. *)
Module PyCounter.

(** [counter[s] += 1]: a missing key reads as zero and is then stored. *)
Definition incr (counter : list (string * Z)) (s : string) : list (string * Z) :=
  PyDict.set s (PyDict.get_or 0 s counter + 1) counter.

(** One step of [sorted(..., key=itemgetter(1), reverse=True)]: [x] stood
    left of every element of [l] and stays left of those whose count is
    not larger. *)
Fixpoint insert_desc (x : string * Z) (l : list (string * Z)) : list (string * Z) :=
  match l with
  | [] => [x]
  | y :: l' => if x.2 <? y.2 then y :: insert_desc x l' else x :: y :: l'
  end.

(** [counter.most_common()]: the items by decreasing count, the sort being
    stable. *)
Definition most_common (counter : list (string * Z)) : list (string * Z) :=
  foldr insert_desc [] counter.

End PyCounter.

(** ** Exceptions and the [statistics] module *)

Inductive exn : Type :=
  | KeyError (key : string)
  | ZeroDivisionError
  | ValueError
  | StatisticsError.

Inductive result (A : Type) : Type :=
  | Ok (a : A)
  | Raise (e : exn).
Arguments Ok {A} a.
Arguments Raise {A} e.

Module PyBuiltin.

(** [sum(xs)] on ints *)
Definition sum (xs : list Z) : Z := fold_left Z.add xs 0.

(** [min(xs)] and [max(xs)]; an empty sequence raises [ValueError]. *)
Definition min (xs : list Z) : result Z :=
  match xs with
  | [] => Raise ValueError
  | x :: xs' => Ok (fold_left Z.min xs' x)
  end.

Definition max (xs : list Z) : result Z :=
  match xs with
  | [] => Raise ValueError
  | x :: xs' => Ok (fold_left Z.max xs' x)
  end.

Fixpoint insert_asc (x : Z) (l : list Z) : list Z :=
  match l with
  | [] => [x]
  | y :: l' => if y <? x then y :: insert_asc x l' else x :: y :: l'
  end.

(** [sorted(xs)] on ints *)
Definition sorted (xs : list Z) : list Z := foldr insert_asc [] xs.

Definition is_space (c : ascii) : bool :=
  let n := Z.of_nat (nat_of_ascii c) in
  ((9 <=? n) && (n <=? 13)) || ((28 <=? n) && (n <=? 32))
  || (n =? 133) || (n =? 160).

(** [word] is the token being read, last character first. *)
Fixpoint split_from (word : list ascii) (s : string) : list string :=
  let flush rest :=
    match word with
    | [] => rest
    | _ => String.string_of_list_ascii (rev word) :: rest
    end in
  match s with
  | EmptyString => flush []
  | String c s' =>
      if is_space c then flush (split_from [] s') else split_from (c :: word) s'
  end.

(** [s.split()]: the maximal runs of characters that are not whitespace. *)
Definition split (s : string) : list string := split_from [] s.

End PyBuiltin.

(** The functions of the standard [statistics] module the reporter calls,
    after CPython 3.11's [Lib/statistics.py], on lists of ints. *)
Module PyStatistics.
Import PyNum.

Definition bit_length (n : Z) : Z := if n =? 0 then 0 else Z.log2 (Z.abs n) + 1.

(** [_integer_sqrt_of_frac_rto]: the square root of [n / m] rounded to an
    integer, to odd when inexact. *)
Definition integer_sqrt_of_frac_rto (n m : Z) : Z :=
  let a := Z.sqrt (n / m) in
  Z.lor a (if a * a * m =? n then 0 else 1).

Definition sqrt_bit_width : Z := 2 * 53 + 3.

(** [_float_sqrt_of_frac]: the float nearest to the square root of [n / m]. *)
Definition float_sqrt_of_frac (n m : Z) : Q :=
  let q := (bit_length n - bit_length m - sqrt_bit_width) / 2 in
  if 0 <=? q then
    int_true_divide (Z.shiftl (integer_sqrt_of_frac_rto n (Z.shiftl m (2 * q))) q) 1
  else
    int_true_divide (integer_sqrt_of_frac_rto (Z.shiftl n (-2 * q)) m) (Z.shiftl 1 (- q)).

(** [_ss]: the exact sum of squared deviations from the mean and the
    number of data points; zero for no data. *)
Definition ss (data : list Z) : Q * Z :=
  let count := Z.of_nat (length data) in
  let sx := PyBuiltin.sum data in
  let sxx := PyBuiltin.sum (map (fun x => x * x) data) in
  if count =? 0 then (0%Q, count)
  else (Qred (Qmake (count * sxx - sx * sx) (Z.to_pos count)), count).

(** [stdev(data)] *)
Definition stdev (data : list Z) : result Q :=
  let '(ssd, n) := ss data in
  if n <? 2 then Raise StatisticsError
  else
    let mss := Qred (ssd / inject_Z (n - 1)) in
    Ok (float_sqrt_of_frac (Qnum mss) (Zpos (Qden mss))).

(** [median(data)]: the middle value, or the true quotient by two of the
    sum of the two middle values. *)
Definition median (data : list Z) : result py_num :=
  let data := PyBuiltin.sorted data in
  let n := length data in
  if (n =? 0)%nat then Raise StatisticsError
  else if (n mod 2 =? 1)%nat then Ok (PyInt (nth (n / 2) data 0))
  else
    let i := (n / 2)%nat in
    Ok (PyFloat (int_true_divide (nth (i - 1) data 0 + nth i data 0) 2)).

End PyStatistics.

(** ** The program: [src/analysis/statistics.py] *)

Import PyNum.

Definition FULL_POSTS_FILE : string := "redsm5_posts.csv".
Definition ANNOTATIONS_FILE : string := "redsm5_annotations.csv".

Definition BDI_DSM5_MAPPING : list (Z * string) :=
  [ (1, "DEPRESSED_MOOD"); (2, "DEPRESSED_MOOD"); (3, "WORTHLESSNESS");
    (4, "ANHEDONIA"); (5, "WORTHLESSNESS"); (6, "WORTHLESSNESS");
    (7, "WORTHLESSNESS"); (8, "WORTHLESSNESS"); (9, "SUICIDAL_THOUGHTS");
    (10, "DEPRESSED_MOOD"); (11, "PSYCHOMOTOR"); (12, "ANHEDONIA");
    (13, "COGNITIVE_ISSUES"); (14, "WORTHLESSNESS"); (15, "FATIGUE");
    (16, "SLEEP_ISSUES"); (17, "DEPRESSED_MOOD"); (18, "APPETITE_CHANGE");
    (19, "COGNITIVE_ISSUES"); (20, "FATIGUE"); (21, "ANHEDONIA") ].

Definition DSM5_SYMPTOM_NAMES : gset string := list_to_set BDI_DSM5_MAPPING.*2.

(** A row of the posts file, as [csv.DictReader] yields it. *)
Record post_row : Type := PostRow {
  row_post_id : string;
  row_text : string
}.

(** A row of the annotations file. *)
Record annotation_row : Type := AnnotationRow {
  post_id : string;
  DSM5_symptom : string;
  status : string
}.

Abbreviation posts_dict := (list (string * string)).
Abbreviation symptoms_dict := (list (string * gset string)).
Abbreviation annotations_dict := (list (string * list (string * string))).

(** *** [load_full_posts] *)

Definition load_full_posts (rows : list post_row) : posts_dict :=
  fold_left (fun posts row => PyDict.set (row_post_id row) (row_text row) posts) rows [].

(** *** [load_annotations] *)

(** The body of the loop, for one row. *)
Definition load_annotations_row (acc : symptoms_dict * annotations_dict)
    (row : annotation_row) : symptoms_dict * annotations_dict :=
  let '(post_to_symptoms, post_to_all_annotations) := acc in
  let post_id := post_id row in
  let symptom := DSM5_symptom row in
  let status := status row in
  let post_to_symptoms :=
    if bool_decide (status = "1") && bool_decide (symptom ∈ DSM5_SYMPTOM_NAMES) then
      let '(s, d) := PyDict.getitem_default ∅ post_id post_to_symptoms in
      PyDict.set post_id (s ∪ {[symptom]}) d
    else post_to_symptoms in
  let post_to_all_annotations :=
    if bool_decide (status = "0") || bool_decide (status = "1") then
      let '(l, d) := PyDict.getitem_default [] post_id post_to_all_annotations in
      PyDict.set post_id (l ++ [(symptom, status)]) d
    else post_to_all_annotations in
  (post_to_symptoms, post_to_all_annotations).

Definition load_annotations (rows : list annotation_row)
  : symptoms_dict * annotations_dict :=
  fold_left load_annotations_row rows ([], []).

(** *** The reporter's store

    [print_statistics] receives references to the three dicts built by the
    loaders and writes to standard output; a subscript on a [defaultdict]
    can store a key.  The store holds the objects so that every such
    effect is visible. *)
Record store : Type := Store {
  posts : posts_dict;
  post_to_symptoms : symptoms_dict;
  post_to_all_annotations : annotations_dict;
  stdout : string
}.

(** A computation that reads and updates the store and may raise. *)
Definition M (A : Type) : Type := store -> result A * store.

Definition ret {A} (a : A) : M A := fun st => (Ok a, st).

Definition bind {A B} (m : M A) (k : A -> M B) : M B :=
  fun st =>
    match m st with
    | (Ok a, st') => k a st'
    | (Raise e, st') => (Raise e, st')
    end.

#[global] Instance M_ret : MRet M := @ret.
#[global] Instance M_bind : MBind M := fun A B k m => bind m k.

Definition lift {A} (r : result A) : M A := fun st => (r, st).

Fixpoint for_each {A B} (f : A -> M B) (xs : list A) : M (list B) :=
  match xs with
  | [] => ret []
  | x :: xs' => y ← f x; ys ← for_each f xs'; ret (y :: ys)
  end.

(** [posts[pid]] *)
Definition posts_getitem (pid : string) : M string :=
  fun st =>
    match PyDict.get pid (posts st) with
    | Some text => (Ok text, st)
    | None => (Raise (KeyError pid), st)
    end.

(** [post_to_symptoms[pid]] *)
Definition post_to_symptoms_getitem (pid : string) : M (gset string) :=
  fun st =>
    let '(s, d) := PyDict.getitem_default ∅ pid (post_to_symptoms st) in
    (Ok s, Store (posts st) d (post_to_all_annotations st) (stdout st)).

(** [post_to_all_annotations[pid]] *)
Definition post_to_all_annotations_getitem (pid : string) : M (list (string * string)) :=
  fun st =>
    let '(l, d) := PyDict.getitem_default [] pid (post_to_all_annotations st) in
    (Ok l, Store (posts st) (post_to_symptoms st) d (stdout st)).

(** [print(line)] *)
Definition print (line : string) : M unit :=
  fun st =>
    (Ok tt, Store (posts st) (post_to_symptoms st) (post_to_all_annotations st)
                  (stdout st +:+ line +:+ String "010" "")).

(** [len(x)] *)
Definition len {A} (l : list A) : Z := Z.of_nat (length l).

(** [total / n if n else 0] *)
Definition avg_or_zero (total n : Z) : py_num :=
  if n =? 0 then PyInt 0 else PyFloat (int_true_divide total n).

(** [a / b] *)
Definition true_divide (a b : Z) : result Q :=
  if b =? 0 then Raise ZeroDivisionError else Ok (int_true_divide a b).

(** *** [print_statistics] *)

(** The local variables of [print_statistics] when its prints start. *)
Record statistics : Type := Statistics {
  n_of_posts : Z;
  n_of_explanations : Z;
  avg_explanations_per_post : py_num;
  n_of_hard_negatives : Z;
  post_lengths : list Z;
  avg_length : Q;
  min_length : Z;
  max_length : Z;
  median_length : py_num;
  std_dev_length : py_num;
  avg_symptoms_per_post : py_num
}.

(** Lines 62 to 76: the assignments. *)
Definition compute_statistics (post_ids : list string) : M statistics :=
  let n_of_posts := len post_ids in
  explanation_counts ←
    for_each (fun pid => l ← post_to_all_annotations_getitem pid; ret (len l)) post_ids;
  let n_of_explanations := PyBuiltin.sum explanation_counts in
  let avg_explanations_per_post := avg_or_zero n_of_explanations n_of_posts in
  hard_negative_flags ←
    for_each (fun pid => s ← post_to_symptoms_getitem pid;
                         ret (if bool_decide (size s = 0%nat) then 1 else 0)) post_ids;
  let n_of_hard_negatives := PyBuiltin.sum hard_negative_flags in
  post_lengths ←
    for_each (fun pid => text ← posts_getitem pid; ret (len (PyBuiltin.split text))) post_ids;
  avg_length ← lift (true_divide (PyBuiltin.sum post_lengths) n_of_posts);
  min_length ← lift (PyBuiltin.min post_lengths);
  max_length ← lift (PyBuiltin.max post_lengths);
  median_length ← lift (PyStatistics.median post_lengths);
  std_dev_length ←
    (if 1 <? n_of_posts
     then x ← lift (PyStatistics.stdev post_lengths); ret (PyFloat x)
     else ret (PyInt 0));
  symptom_counts ←
    for_each (fun pid => s ← post_to_symptoms_getitem pid; ret (Z.of_nat (size s))) post_ids;
  let avg_symptoms_per_post := avg_or_zero (PyBuiltin.sum symptom_counts) n_of_posts in
  ret (Statistics n_of_posts n_of_explanations avg_explanations_per_post
         n_of_hard_negatives post_lengths avg_length min_length max_length
         median_length std_dev_length avg_symptoms_per_post).

(** Lines 78 to 89: the ten lines of the statistics block. *)
Definition statistics_lines (s : statistics) : list string :=
  [ "Total number of posts: " +:+ int_str (n_of_posts s);
    "Total number of explanations (all status): " +:+ int_str (n_of_explanations s);
    "Avg. number of explanations per post: " +:+ format_2f (avg_explanations_per_post s);
    "Avg. number of symptoms per post (status=1 only): "
      +:+ format_2f (avg_symptoms_per_post s);
    "Number of hard negatives: " +:+ int_str (n_of_hard_negatives s);
    "Avg. length of post (in words): " +:+ format_2f (PyFloat (avg_length s));
    "Median length of post (in words): " +:+ py_str (median_length s);
    "Std. dev. of post length (in words): " +:+ format_2f (std_dev_length s);
    "Min. length of post (in words): " +:+ int_str (min_length s);
    "Max. length of post (in words): " +:+ int_str (max_length s) ].

Fixpoint print_all (lines : list string) : M unit :=
  match lines with
  | [] => ret tt
  | line :: lines' => print line ;; print_all lines'
  end.

Definition print_statistics (post_ids : list string) : M unit :=
  s ← compute_statistics post_ids;
  print_all (statistics_lines s).

(** *** [print_symptom_distribution] *)

(** The counter when the two nested loops are over. *)
Definition count_symptoms (post_to_symptoms : symptoms_dict) : list (string * Z) :=
  fold_left (fun counter symptoms => fold_left PyCounter.incr (elements symptoms) counter)
            (PyDict.values post_to_symptoms) [].

Definition distribution_line (item : string * Z) : string :=
  "  " +:+ item.1 +:+ ": " +:+ int_str item.2.

Definition print_symptom_distribution : M unit :=
  fun st =>
    let counter := count_symptoms (post_to_symptoms st) in
    (print "Posts per symptom (status=1 only):" ;;
     print_all (map distribution_line (PyCounter.most_common counter))) st.

(** *** [main]

    The two files are given by their rows. *)
Definition main (post_rows : list post_row) (annotation_rows : list annotation_row)
  : result unit * store :=
  let posts := load_full_posts post_rows in
  let '(post_to_symptoms, post_to_all_annotations) := load_annotations annotation_rows in
  let all_post_ids := PyDict.keys posts in
  (print_statistics all_post_ids ;;
   print "" ;;
   print_symptom_distribution)
    (Store posts post_to_symptoms post_to_all_annotations "").

(** ** Vocabulary of the statements *)

(** A row that confirms a symptom: status ["1"] and a label of the
    taxonomy. *)
Definition is_confirmed (row : annotation_row) : Prop :=
  status row = "1" ∧ DSM5_symptom row ∈ DSM5_SYMPTOM_NAMES.

(** A row that counts as an explanation: status ["0"] or ["1"]. *)
Definition is_explanation (row : annotation_row) : Prop :=
  status row = "0" ∨ status row = "1".

#[global] Instance is_confirmed_dec row : Decision (is_confirmed row).
Proof. unfold is_confirmed. apply _. Defined.

#[global] Instance is_explanation_dec row : Decision (is_explanation row).
Proof. unfold is_explanation. apply _. Defined.

(** The pair an explanation list holds for a row. *)
Definition explanation_of (row : annotation_row) : string * string :=
  (DSM5_symptom row, status row).

(** *** What the reporter computes, read off the store

    The store enters [print_statistics] only through what three lookups
    return: [posts[pid]], and the two [defaultdict] subscripts, which read
    an absent identifier as empty. *)

#[global] Instance result_ret : MRet result := @Ok.
#[global] Instance result_bind : MBind result := fun A B k r =>
  match r with
  | Ok a => k a
  | Raise e => Raise e
  end.

(** The word counts of the posts, or the [KeyError] of the first
    identifier that the post map lacks. *)
Fixpoint lengths_of (posts : posts_dict) (post_ids : list string) : result (list Z) :=
  match post_ids with
  | [] => Ok []
  | pid :: post_ids' =>
      match PyDict.get pid posts with
      | None => Raise (KeyError pid)
      | Some text =>
          lengths ← lengths_of posts post_ids';
          Ok (len (PyBuiltin.split text) :: lengths)
      end
  end.

Definition std_dev_of (n : Z) (post_lengths : list Z) : result py_num :=
  if 1 <? n
  then x ← PyStatistics.stdev post_lengths; Ok (PyFloat x)
  else Ok (PyInt 0).

Definition statistics_of (post_ids : list string) (posts : posts_dict)
    (symptoms_of : string → gset string)
    (explanations_of : string → list (string * string)) : result statistics :=
  let n := len post_ids in
  let n_explanations := PyBuiltin.sum ((λ pid, len (explanations_of pid)) <$> post_ids) in
  let n_hard_negatives :=
    PyBuiltin.sum
      ((λ pid, if bool_decide (size (symptoms_of pid) = 0%nat) then 1 else 0) <$> post_ids) in
  let n_symptoms := PyBuiltin.sum ((λ pid, Z.of_nat (size (symptoms_of pid))) <$> post_ids) in
  lengths ← lengths_of posts post_ids;
  avg ← true_divide (PyBuiltin.sum lengths) n;
  lo ← PyBuiltin.min lengths;
  hi ← PyBuiltin.max lengths;
  med ← PyStatistics.median lengths;
  sd ← std_dev_of n lengths;
  Ok (Statistics n n_explanations (avg_or_zero n_explanations n) n_hard_negatives
        lengths avg lo hi med sd (avg_or_zero n_symptoms n)).

(** The text that printing [lines] adds to standard output. *)
Fixpoint printed (lines : list string) : string :=
  match lines with
  | [] => ""
  | line :: lines' => (line +:+ String "010" "") +:+ printed lines'
  end.

(** The keys that subscripting a [defaultdict] with each of [ks] in turn
    stores: those it lacks, each once, in order of first occurrence.
    [seen] are the keys it has. *)
Fixpoint fresh_keys (seen : list string) (ks : list string) : list string :=
  match ks with
  | [] => []
  | k :: ks' =>
      if decide (k ∈ seen) then fresh_keys seen ks'
      else k :: fresh_keys (seen ++ [k]) ks'
  end.

(** The store that [print_statistics] leaves behind, apart from what it
    printed. *)
Definition touched (post_ids : list string) (st : store) : store :=
  Store (posts st)
        (PyDict.touch_all ∅ post_ids (post_to_symptoms st))
        (PyDict.touch_all [] post_ids (post_to_all_annotations st))
        (stdout st).

Definition with_stdout (out : string) (st : store) : store :=
  Store (posts st) (post_to_symptoms st) (post_to_all_annotations st) out.

(** The number of posts of a grouping whose confirmed-symptom set holds
    the category [c]. *)
Definition posts_with (c : string) (d : symptoms_dict) : Z :=
  len (filter (λ pid, c ∈ PyDict.get_or ∅ pid d) (PyDict.keys d)).

(** All the members of the sets of a grouping, in the order in which the
    two nested loops of [print_symptom_distribution] meet them. *)
Definition encounters (d : symptoms_dict) : list string :=
  concat (elements <$> PyDict.values d).

(** [x] is ranked before [y]: its count is not smaller. *)
Definition ranks_before (x y : string * Z) : Prop := y.2 ≤ x.2.

(** *** Sample inputs *)

Definition scenario_A_posts : list post_row :=
  [ PostRow "p1" "a b c"; PostRow "p2" "a b c d e" ].

Definition scenario_A_annotations : list annotation_row :=
  [ AnnotationRow "p1" "DEPRESSED_MOOD" "1";
    AnnotationRow "p1" "ANHEDONIA" "0";
    AnnotationRow "p2" "WORTHLESSNESS" "1" ].

(** The store on which [main] calls [print_statistics] for the two files. *)
Definition loaded (post_rows : list post_row) (annotation_rows : list annotation_row)
  : store :=
  Store (load_full_posts post_rows)
        (load_annotations annotation_rows).1
        (load_annotations annotation_rows).2
        "".

(** Three posts whose sets give FATIGUE two posts and one post to each of
    ANHEDONIA and PSYCHOMOTOR. *)
Definition tie_annotations : list annotation_row :=
  [ AnnotationRow "p1" "ANHEDONIA" "1";
    AnnotationRow "p2" "FATIGUE" "1";
    AnnotationRow "p3" "PSYCHOMOTOR" "1";
    AnnotationRow "p3" "FATIGUE" "1" ].

(** *** Shapes of printed text *)







(** The first identifier of [post_ids] that the post map lacks. *)
Fixpoint first_missing (posts : posts_dict) (post_ids : list string) : option string :=
  match post_ids with
  | [] => None
  | pid :: post_ids' =>
      if decide (pid ∈ PyDict.keys posts) then first_missing posts post_ids' else Some pid
  end.

(** How a call of [print_statistics] ends. *)
Definition outcome_of (posts : posts_dict) (post_ids : list string) : result unit :=
  match post_ids with
  | [] => Raise ZeroDivisionError
  | _ :: _ =>
      match first_missing posts post_ids with
      | Some pid => Raise (KeyError pid)
      | None => Ok tt
      end
  end.


(** *** Sample variance *)

(** The exact mean of a list of ints. *)
Definition mean_of (xs : list Z) : Q :=
  (inject_Z (PyBuiltin.sum xs) / inject_Z (len xs))%Q.

(** The sum of the squares of the deviations from [c]. *)
Fixpoint squared_deviations (xs : list Z) (c : Q) : Q :=
  match xs with
  | [] => 0%Q
  | x :: xs' => ((inject_Z x - c) * (inject_Z x - c) + squared_deviations xs' c)%Q
  end.

(** * Proofs *)

(** ** Facts about dicts *)

Section DictFacts.
Context {V : Type}.
Implicit Types (k : string) (v : V) (d : list (string * V)).

Lemma get_set_eq k v d : PyDict.get k (PyDict.set k v d) = Some v.
Proof.
  induction d as [|[k' v'] d IH]; simpl.
  - by rewrite decide_True.
  - destruct (decide (k' = k)) as [->|Hne]; simpl.
    + by rewrite decide_True.
    + by rewrite decide_False.
Qed.

Lemma get_set_ne k k' v d :
  k ≠ k' → PyDict.get k' (PyDict.set k v d) = PyDict.get k' d.
Proof.
  intros Hne. induction d as [|[k0 v0] d IH]; simpl.
  - by rewrite decide_False.
  - destruct (decide (k0 = k)) as [->|Hk0]; simpl.
    + by rewrite !decide_False.
    + destruct (decide (k0 = k')); [done | apply IH].
Qed.

Lemma get_None_keys k d : PyDict.get k d = None ↔ k ∉ PyDict.keys d.
Proof.
  unfold PyDict.keys. induction d as [|[k' v'] d IH]; simpl.
  - split; [intros _; apply not_elem_of_nil | done].
  - rewrite not_elem_of_cons. destruct (decide (k' = k)) as [->|Hne].
    + split; [done | intros [? _]; done].
    + rewrite IH. split; [intros ?; split; [congruence | done] | intros [_ ?]; done].
Qed.

Lemma get_Some_keys k d : is_Some (PyDict.get k d) ↔ k ∈ PyDict.keys d.
Proof.
  destruct (PyDict.get k d) eqn:Hg.
  - split; [intros _ | by eauto].
    destruct (decide (k ∈ PyDict.keys d)) as [|Hn]; [done|].
    apply get_None_keys in Hn. congruence.
  - split; [intros [? ?]; done |].
    intros Hin. by apply get_None_keys in Hg.
Qed.

Lemma set_absent k v d : PyDict.get k d = None → PyDict.set k v d = d ++ [(k, v)].
Proof.
  induction d as [|[k' v'] d IH]; simpl; [done|].
  destruct (decide (k' = k)); [done|]. intros Hg. by rewrite IH.
Qed.

Lemma keys_set_present k v d :
  is_Some (PyDict.get k d) → PyDict.keys (PyDict.set k v d) = PyDict.keys d.
Proof.
  unfold PyDict.keys. induction d as [|[k' v'] d IH]; simpl.
  - intros [? ?]; done.
  - destruct (decide (k' = k)) as [->|Hne]; simpl; [done|].
    intros Hs. simpl. f_equal. by apply IH.
Qed.

Lemma keys_set_absent k v d :
  PyDict.get k d = None → PyDict.keys (PyDict.set k v d) = PyDict.keys d ++ [k].
Proof.
  intros Hg. rewrite set_absent by done. unfold PyDict.keys. by rewrite fmap_app.
Qed.

Lemma keys_set_NoDup k v d :
  NoDup (PyDict.keys d) → NoDup (PyDict.keys (PyDict.set k v d)).
Proof.
  intros Hnd. destruct (PyDict.get k d) eqn:Hg.
  - by rewrite keys_set_present by eauto.
  - rewrite keys_set_absent by done. apply NoDup_app. split; [done|].
    split; [|apply NoDup_singleton].
    intros x Hx ->%list_elem_of_singleton. by apply get_None_keys in Hg.
Qed.

Lemma get_or_set_eq dflt k v d : PyDict.get_or dflt k (PyDict.set k v d) = v.
Proof. unfold PyDict.get_or. by rewrite get_set_eq. Qed.

Lemma get_or_set_ne dflt k k' v d :
  k ≠ k' → PyDict.get_or dflt k' (PyDict.set k v d) = PyDict.get_or dflt k' d.
Proof. intros. unfold PyDict.get_or. by rewrite get_set_ne. Qed.

(** A subscript on a [defaultdict] returns what [get_or] sees and leaves
    what every key reads as unchanged. *)
Lemma getitem_default_fst dflt k d :
  (PyDict.getitem_default dflt k d).1 = PyDict.get_or dflt k d.
Proof.
  unfold PyDict.getitem_default, PyDict.get_or. by destruct (PyDict.get k d).
Qed.

Lemma getitem_default_get_or dflt k k' d :
  PyDict.get_or dflt k' (PyDict.getitem_default dflt k d).2 = PyDict.get_or dflt k' d.
Proof.
  unfold PyDict.getitem_default. destruct (PyDict.get k d) eqn:Hg; simpl; [done|].
  destruct (decide (k = k')) as [<-|Hne].
  - rewrite get_or_set_eq. unfold PyDict.get_or. by rewrite Hg.
  - by apply get_or_set_ne.
Qed.

Lemma getitem_default_snd dflt k d :
  (PyDict.getitem_default dflt k d).2
  = if decide (k ∈ PyDict.keys d) then d else d ++ [(k, dflt)].
Proof.
  unfold PyDict.getitem_default. destruct (PyDict.get k d) eqn:Hg; simpl.
  - rewrite decide_True; [done|]. apply get_Some_keys. eauto.
  - rewrite decide_False; [by apply set_absent|]. by apply get_None_keys.
Qed.
Lemma get_or_cons_eq dflt k v d : PyDict.get_or dflt k ((k, v) :: d) = v.
Proof. unfold PyDict.get_or. simpl. by rewrite decide_True. Qed.

Lemma get_or_cons_ne dflt k k' v d :
  k ≠ k' → PyDict.get_or dflt k' ((k, v) :: d) = PyDict.get_or dflt k' d.
Proof. intros. unfold PyDict.get_or. simpl. by rewrite decide_False. Qed.
End DictFacts.

(** ** The post loader *)

Lemma load_full_posts_snoc (rows : list post_row) (r : post_row) :
  load_full_posts (rows ++ [r])
  = PyDict.set (row_post_id r) (row_text r) (load_full_posts rows).
Proof. unfold load_full_posts. by rewrite fold_left_app. Qed.

Lemma load_full_posts_get (rows : list post_row) (pid : string) :
  PyDict.get pid (load_full_posts rows)
  = row_text <$> last (filter (λ r, row_post_id r = pid) rows).
Proof.
  induction rows as [|r rows IH] using rev_ind; [done|].
  rewrite load_full_posts_snoc, filter_app, filter_cons, filter_nil.
  destruct (decide (row_post_id r = pid)) as [<-|Hne].
  - by rewrite get_set_eq, last_snoc.
  - by rewrite get_set_ne, app_nil_r.
Qed.

Lemma load_full_posts_keys (rows : list post_row) :
  PyDict.keys (load_full_posts rows)
  = reverse (remove_dups (reverse (row_post_id <$> rows))).
Proof.
  induction rows as [|r rows IH] using rev_ind; [done|].
  rewrite load_full_posts_snoc, fmap_snoc, reverse_snoc. simpl.
  destruct (decide_rel elem_of (row_post_id r) (reverse (row_post_id <$> rows)))
    as [Hin|Hnin].
  - rewrite <- IH. apply keys_set_present, get_Some_keys.
    rewrite IH, elem_of_reverse, elem_of_remove_dups. done.
  - rewrite reverse_cons, <- IH. apply keys_set_absent, get_None_keys.
    rewrite IH, elem_of_reverse, elem_of_remove_dups. done.
Qed.

(** C6.  The post loader takes the rows in file order: the keys of the
    resulting map are the identifiers in the order in which they first
    occur, every identifier maps to the text of the last row that carries
    it, and a row with an empty text is stored like any other. *)
Theorem load_full_posts_last_write_wins (rows : list post_row) (pid : string) :
  PyDict.get pid (load_full_posts rows)
    = row_text <$> last (filter (λ r, row_post_id r = pid) rows)
  ∧ PyDict.keys (load_full_posts rows)
    = reverse (remove_dups (reverse (row_post_id <$> rows)))
  ∧ NoDup (PyDict.keys (load_full_posts rows))
  ∧ PyDict.get pid (load_full_posts (rows ++ [PostRow pid ""])) = Some "".
Proof.
  split; [apply load_full_posts_get|].
  split; [apply load_full_posts_keys|].
  split.
  - rewrite load_full_posts_keys, reverse_Permutation. apply NoDup_remove_dups.
  - rewrite load_full_posts_snoc. apply get_set_eq.
Qed.

(** ** The annotation aggregator *)

Lemma set_set {V : Type} (k : string) (v w : V) (d : list (string * V)) :
  PyDict.set k w (PyDict.set k v d) = PyDict.set k w d.
Proof.
  induction d as [|[k' v'] d IH]; simpl.
  - by rewrite decide_True.
  - destruct (decide (k' = k)) as [->|Hne]; simpl.
    + by rewrite decide_True.
    + rewrite decide_False by done. by rewrite IH.
Qed.

Lemma set_getitem_default {V : Type} (dflt : V) (k : string) (w : V)
    (d : list (string * V)) :
  PyDict.set k w (PyDict.getitem_default dflt k d).2 = PyDict.set k w d.
Proof.
  unfold PyDict.getitem_default. destruct (PyDict.get k d); simpl; [done|].
  apply set_set.
Qed.

(** The loop body as two independent updates. *)
Lemma load_annotations_row_fst (acc : symptoms_dict * annotations_dict)
    (row : annotation_row) :
  (load_annotations_row acc row).1
  = if decide (is_confirmed row)
    then PyDict.set (post_id row)
           (PyDict.get_or ∅ (post_id row) acc.1 ∪ {[DSM5_symptom row]}) acc.1
    else acc.1.
Proof.
  destruct acc as [s a]. unfold load_annotations_row, is_confirmed.
  cbn [fst snd].
  destruct (PyDict.getitem_default [] (post_id row) a) as [l0 a0].
  destruct (PyDict.getitem_default ∅ (post_id row) s) as [s0 d0] eqn:E.
  pose proof (getitem_default_fst ∅ (post_id row) s) as H1.
  pose proof (set_getitem_default ∅ (post_id row)
                (s0 ∪ {[DSM5_symptom row]}) s) as H2.
  rewrite E in H1, H2. cbn [fst snd] in H1, H2. subst s0.
  destruct (decide _) as [[Hs Hm]|Hn].
  - rewrite !bool_decide_eq_true_2 by done.
    cbn [andb fst]. exact H2.
  - destruct (bool_decide (status row = "1")) eqn:Eb1; cbn [andb fst]; [|reflexivity].
    destruct (bool_decide (DSM5_symptom row ∈ _)) eqn:Eb2; cbn [fst]; [|reflexivity].
    apply bool_decide_eq_true in Eb1. apply bool_decide_eq_true in Eb2.
    destruct (Hn (conj Eb1 Eb2)).
Qed.

Lemma load_annotations_row_snd (acc : symptoms_dict * annotations_dict)
    (row : annotation_row) :
  (load_annotations_row acc row).2
  = if decide (is_explanation row)
    then PyDict.set (post_id row)
           (PyDict.get_or [] (post_id row) acc.2 ++ [explanation_of row]) acc.2
    else acc.2.
Proof.
  destruct acc as [s a]. unfold load_annotations_row, is_explanation. simpl.
  destruct (PyDict.getitem_default ∅ (post_id row) s) as [s0 d0].
  destruct (PyDict.getitem_default [] (post_id row) a) as [l0 a0] eqn:E.
  pose proof (getitem_default_fst [] (post_id row) a) as H1.
  pose proof (set_getitem_default [] (post_id row)
                (l0 ++ [explanation_of row]) a) as H2.
  rewrite E in H1, H2. simpl in H1, H2. subst l0.
  repeat case_bool_decide; simpl;
    destruct (decide _) as [[?|?]|Hn]; try done;
    try (exfalso; apply Hn; auto; done).
Qed.

Lemma load_annotations_snoc (rows : list annotation_row) (r : annotation_row) :
  load_annotations (rows ++ [r]) = load_annotations_row (load_annotations rows) r.
Proof. unfold load_annotations. by rewrite fold_left_app. Qed.

Lemma load_annotations_symptoms (rows : list annotation_row) (pid : string) :
  PyDict.get_or ∅ pid (load_annotations rows).1
  = list_to_set (DSM5_symptom <$> filter (λ r, post_id r = pid ∧ is_confirmed r) rows).
Proof.
  induction rows as [|r rows IH] using rev_ind; [done|].
  rewrite load_annotations_snoc, load_annotations_row_fst, filter_app, filter_cons, filter_nil.
  destruct (decide (is_confirmed r)) as [Hc|Hc].
  - destruct (decide (post_id r = pid)) as [<-|Hne].
    + rewrite get_or_set_eq, IH, decide_True by done.
      by rewrite fmap_snoc, list_to_set_snoc_L.
    + rewrite get_or_set_ne, IH, decide_False, app_nil_r by (try intros [? ?]; done).
      done.
  - rewrite decide_False, app_nil_r by (intros [? ?]; done). done.
Qed.

Lemma load_annotations_explanations (rows : list annotation_row) (pid : string) :
  PyDict.get_or [] pid (load_annotations rows).2
  = explanation_of <$> filter (λ r, post_id r = pid ∧ is_explanation r) rows.
Proof.
  induction rows as [|r rows IH] using rev_ind; [done|].
  rewrite load_annotations_snoc, load_annotations_row_snd, filter_app, filter_cons, filter_nil.
  destruct (decide (is_explanation r)) as [Hc|Hc].
  - destruct (decide (post_id r = pid)) as [<-|Hne].
    + rewrite get_or_set_eq, IH, decide_True by done.
      by rewrite fmap_snoc.
    + rewrite get_or_set_ne, IH, decide_False, app_nil_r by (try intros [? ?]; done).
      done.
  - rewrite decide_False, app_nil_r by (intros [? ?]; done). done.
Qed.

(** The keys of a dict that a loop fills by [d[key r] = ...] for the rows
    that satisfy [P]. *)
Lemma keys_set_first_occurrence {V : Type} (k : string) (v : V)
    (d : list (string * V)) (ks : list string) :
  PyDict.keys d = reverse (remove_dups (reverse ks)) →
  PyDict.keys (PyDict.set k v d) = reverse (remove_dups (reverse (ks ++ [k]))).
Proof.
  intros Hd. rewrite reverse_snoc. simpl.
  destruct (decide_rel elem_of k (reverse ks)) as [Hin|Hnin].
  - rewrite <- Hd. apply keys_set_present, get_Some_keys.
    by rewrite Hd, elem_of_reverse, elem_of_remove_dups.
  - rewrite reverse_cons, <- Hd. apply keys_set_absent, get_None_keys.
    by rewrite Hd, elem_of_reverse, elem_of_remove_dups.
Qed.

Lemma load_annotations_keys (rows : list annotation_row) :
  PyDict.keys (load_annotations rows).1
    = reverse (remove_dups (reverse (post_id <$> filter is_confirmed rows)))
  ∧ PyDict.keys (load_annotations rows).2
    = reverse (remove_dups (reverse (post_id <$> filter is_explanation rows))).
Proof.
  induction rows as [|r rows [IH1 IH2]] using rev_ind; [done|].
  rewrite load_annotations_snoc, load_annotations_row_fst, load_annotations_row_snd,
    !filter_app, !filter_cons, !filter_nil.
  split.
  - destruct (decide (is_confirmed r)).
    + rewrite fmap_snoc. by apply keys_set_first_occurrence.
    + by rewrite app_nil_r.
  - destruct (decide (is_explanation r)).
    + rewrite fmap_snoc. by apply keys_set_first_occurrence.
    + by rewrite app_nil_r.
Qed.

Lemma is_confirmed_explanation (row : annotation_row) :
  is_confirmed row → is_explanation row.
Proof. intros [? _]. by right. Qed.

Lemma load_annotations_row_skip (acc : symptoms_dict * annotations_dict)
    (row : annotation_row) :
  ¬ is_explanation row → load_annotations_row acc row = acc.
Proof.
  intros Hn. rewrite (surjective_pairing (load_annotations_row acc row)).
  rewrite load_annotations_row_fst, load_annotations_row_snd.
  rewrite !decide_False by (try done; intros ?%is_confirmed_explanation; done).
  by destruct acc.
Qed.

Lemma load_annotations_skip (rows : list annotation_row) :
  load_annotations (filter is_explanation rows) = load_annotations rows.
Proof.
  unfold load_annotations. generalize (@nil (string * gset string),
                                       @nil (string * list (string * string))).
  induction rows as [|r rows IH]; intros acc; [done|].
  rewrite filter_cons. destruct (decide (is_explanation r)) as [He|He]; simpl.
  - apply IH.
  - rewrite load_annotations_row_skip by done. apply IH.
Qed.

(** C4.  The aggregator classifies every row in one pass.  For every post
    identifier, the confirmed-symptom set holds exactly the labels of its
    rows with status ["1"] and a label of the taxonomy (a set: a repeated
    row adds nothing), the explanation list holds the (symptom, status)
    pair of each of its rows with status ["0"] or ["1"], in input order and
    with repetitions, whatever the label; the keys of the two groupings are
    the identifiers of such rows in order of first occurrence; and rows
    with another status can be dropped from the input without changing
    either grouping. *)
Theorem load_annotations_classifies (rows : list annotation_row) (pid : string) :
  PyDict.get_or ∅ pid (load_annotations rows).1
    = list_to_set (DSM5_symptom <$> filter (λ r, post_id r = pid ∧ is_confirmed r) rows)
  ∧ PyDict.get_or [] pid (load_annotations rows).2
    = explanation_of <$> filter (λ r, post_id r = pid ∧ is_explanation r) rows
  ∧ PyDict.keys (load_annotations rows).1
    = reverse (remove_dups (reverse (post_id <$> filter is_confirmed rows)))
  ∧ PyDict.keys (load_annotations rows).2
    = reverse (remove_dups (reverse (post_id <$> filter is_explanation rows)))
  ∧ load_annotations (filter is_explanation rows) = load_annotations rows.
Proof.
  split; [apply load_annotations_symptoms|].
  split; [apply load_annotations_explanations|].
  split; [apply load_annotations_keys|].
  split; [apply load_annotations_keys|].
  apply load_annotations_skip.
Qed.

Lemma size_list_to_set_le (l : list string) :
  (size (list_to_set l : gset string) ≤ length l)%nat.
Proof.
  induction l as [|x l IH].
  - by rewrite list_to_set_nil, size_empty.
  - rewrite list_to_set_cons, size_union_alt, size_singleton. simpl.
    assert (list_to_set l ∖ {[x]} ⊆ (list_to_set l : gset string)) as Hsub
      by (intros y [Hy _]%elem_of_difference; exact Hy).
    apply subseteq_size in Hsub. lia.
Qed.

Lemma length_filter_impl {A : Type} (P Q : A → Prop)
    `{!∀ x, Decision (P x)} `{!∀ x, Decision (Q x)} (l : list A) :
  (∀ x, P x → Q x) → (length (filter P l) ≤ length (filter Q l))%nat.
Proof.
  intros HPQ. induction l as [|x l IH]; [done|].
  rewrite !filter_cons. destruct (decide (P x)) as [HP|HP].
  - rewrite decide_True by auto. simpl. lia.
  - destruct (decide (Q x)); simpl; lia.
Qed.

(** C5.  For every annotation dataset and every post identifier, the
    explanation list of the post is at least as long as its
    confirmed-symptom set is large; an identifier that a grouping lacks
    counts as empty there. *)
Theorem explanations_cover_symptoms (rows : list annotation_row) (pid : string) :
  (size (PyDict.get_or ∅ pid (load_annotations rows).1)
   ≤ length (PyDict.get_or [] pid (load_annotations rows).2))%nat.
Proof.
  rewrite load_annotations_symptoms, load_annotations_explanations.
  etrans; [apply size_list_to_set_le|].
  rewrite !length_fmap. apply length_filter_impl.
  intros r [? ?]. split; [done|]. by apply is_confirmed_explanation.
Qed.

(** ** The reporter *)

Lemma getitem_default_touch {V : Type} (dflt : V) (k : string) (ks : list string)
    (d : list (string * V)) :
  PyDict.touch_all dflt (k :: ks) d
  = PyDict.touch_all dflt ks (PyDict.getitem_default dflt k d).2.
Proof. done. Qed.

Lemma touch_all_get_or {V : Type} (dflt : V) (ks : list string) (k : string)
    (d : list (string * V)) :
  PyDict.get_or dflt k (PyDict.touch_all dflt ks d) = PyDict.get_or dflt k d.
Proof.
  revert d. induction ks as [|k0 ks IH]; intros d; [done|].
  by rewrite getitem_default_touch, IH, getitem_default_get_or.
Qed.

Lemma for_each_explanations {B : Type} (f : list (string * string) → B)
    (post_ids : list string) (st : store) :
  for_each (λ pid, l ← post_to_all_annotations_getitem pid; ret (f l)) post_ids st
  = (Ok ((λ pid, f (PyDict.get_or [] pid (post_to_all_annotations st))) <$> post_ids),
     Store (posts st) (post_to_symptoms st)
           (PyDict.touch_all [] post_ids (post_to_all_annotations st)) (stdout st)).
Proof.
  revert st. induction post_ids as [|pid post_ids IH]; intros st.
  - by destruct st.
  - rewrite getitem_default_touch. simpl.
    unfold mbind, M_bind, bind, post_to_all_annotations_getitem at 1.
    pose proof (getitem_default_fst [] pid (post_to_all_annotations st)) as Hfst.
    pose proof (λ pid', getitem_default_get_or [] pid pid' (post_to_all_annotations st)) as Hd.
    destruct (PyDict.getitem_default [] pid (post_to_all_annotations st)) as [l d].
    simpl in Hfst, Hd. subst l. simpl.
    unfold mbind, M_bind, bind in IH. rewrite IH. simpl.
    unfold ret. do 3 f_equal. apply list_fmap_ext. intros _ pid' _. by rewrite Hd.
Qed.

Lemma for_each_symptoms {B : Type} (f : gset string → B)
    (post_ids : list string) (st : store) :
  for_each (λ pid, s ← post_to_symptoms_getitem pid; ret (f s)) post_ids st
  = (Ok ((λ pid, f (PyDict.get_or ∅ pid (post_to_symptoms st))) <$> post_ids),
     Store (posts st) (PyDict.touch_all ∅ post_ids (post_to_symptoms st))
           (post_to_all_annotations st) (stdout st)).
Proof.
  revert st. induction post_ids as [|pid post_ids IH]; intros st.
  - by destruct st.
  - rewrite getitem_default_touch. simpl.
    unfold mbind, M_bind, bind, post_to_symptoms_getitem at 1.
    pose proof (getitem_default_fst ∅ pid (post_to_symptoms st)) as Hfst.
    pose proof (λ pid', getitem_default_get_or ∅ pid pid' (post_to_symptoms st)) as Hd.
    destruct (PyDict.getitem_default ∅ pid (post_to_symptoms st)) as [l d].
    simpl in Hfst, Hd. subst l. simpl.
    unfold mbind, M_bind, bind in IH. rewrite IH. simpl.
    unfold ret. do 3 f_equal. apply list_fmap_ext. intros _ pid' _. by rewrite Hd.
Qed.

Lemma for_each_posts (post_ids : list string) (st : store) :
  for_each (λ pid, text ← posts_getitem pid; ret (len (PyBuiltin.split text)))
           post_ids st
  = (lengths_of (posts st) post_ids, st).
Proof.
  induction post_ids as [|pid post_ids IH]; [done|].
  simpl. unfold mbind, M_bind, bind, posts_getitem at 1.
  destruct (PyDict.get pid (posts st)) as [text|]; [|done].
  simpl. unfold mbind, M_bind, bind in IH. rewrite IH.
  by destruct (lengths_of (posts st) post_ids).
Qed.

Lemma touch_all_fresh {V : Type} (dflt : V) (ks : list string) (d : list (string * V)) :
  PyDict.touch_all dflt ks d = d ++ ((λ k, (k, dflt)) <$> fresh_keys (PyDict.keys d) ks).
Proof.
  revert d. induction ks as [|k ks IH]; intros d.
  - by rewrite app_nil_r.
  - rewrite getitem_default_touch, getitem_default_snd, IH. simpl.
    destruct (decide (k ∈ PyDict.keys d)) as [Hin|Hnin]; [done|].
    unfold PyDict.keys. by rewrite fmap_app, <- app_assoc.
Qed.

Lemma fresh_keys_covers (seen ks : list string) (k : string) :
  k ∈ ks → k ∈ seen ∨ k ∈ fresh_keys seen ks.
Proof.
  revert seen. induction ks as [|k0 ks IH]; intros seen Hin.
  - by apply elem_of_nil in Hin.
  - simpl. apply elem_of_cons in Hin as [->|Hin].
    + destruct (decide (k0 ∈ seen)); [by left | right; apply elem_of_cons; by left].
    + destruct (decide (k0 ∈ seen)); [by apply IH|].
      destruct (IH (seen ++ [k0]) Hin) as [[?| ->%list_elem_of_singleton]%elem_of_app|?].
      * by left.
      * right. apply elem_of_cons. by left.
      * right. apply elem_of_cons. by right.
Qed.

Lemma fresh_keys_none (seen ks : list string) :
  (∀ k, k ∈ ks → k ∈ seen) → fresh_keys seen ks = [].
Proof.
  induction ks as [|k ks IH]; intros Hall; [done|].
  simpl. rewrite decide_True by (apply Hall, elem_of_cons; by left).
  apply IH. intros k' Hk'. apply Hall, elem_of_cons. by right.
Qed.

Lemma fresh_keys_spec (seen ks : list string) :
  NoDup (fresh_keys seen ks)
  ∧ ∀ k, k ∈ fresh_keys seen ks ↔ k ∈ ks ∧ k ∉ seen.
Proof.
  revert seen. induction ks as [|k0 ks IH]; intros seen; simpl.
  - split; [apply NoDup_nil_2|]. intros k. rewrite elem_of_nil. naive_solver.
  - destruct (decide (k0 ∈ seen)) as [Hin|Hnin].
    + destruct (IH seen) as [Hnd Hiff]. split; [done|].
      intros k. rewrite Hiff, elem_of_cons. naive_solver.
    + destruct (IH (seen ++ [k0])) as [Hnd Hiff]. split.
      * apply NoDup_cons. split; [|done].
        rewrite Hiff, elem_of_app, list_elem_of_singleton. naive_solver.
      * intros k. rewrite !elem_of_cons, Hiff, elem_of_app, list_elem_of_singleton.
        destruct (decide (k = k0)); naive_solver.
Qed.

Lemma touch_all_present {V : Type} (dflt : V) (ks : list string) (d : list (string * V)) :
  (∀ k, k ∈ ks → k ∈ PyDict.keys d) → PyDict.touch_all dflt ks d = d.
Proof.
  intros Hall. by rewrite touch_all_fresh, fresh_keys_none, app_nil_r.
Qed.

Lemma touch_all_idem {V : Type} (dflt : V) (ks : list string) (d : list (string * V)) :
  PyDict.touch_all dflt ks (PyDict.touch_all dflt ks d) = PyDict.touch_all dflt ks d.
Proof.
  apply touch_all_present. intros k Hk. rewrite touch_all_fresh.
  unfold PyDict.keys. rewrite fmap_app, elem_of_app, <- list_fmap_compose.
  destruct (fresh_keys_covers (PyDict.keys d) ks k Hk) as [?|?]; [by left|right].
  by rewrite list_fmap_id.
Qed.

Lemma lengths_of_length (posts : posts_dict) (post_ids : list string) (lengths : list Z) :
  lengths_of posts post_ids = Ok lengths → length lengths = length post_ids.
Proof.
  revert lengths. induction post_ids as [|pid post_ids IH]; intros lengths; simpl.
  - by intros [= <-].
  - destruct (PyDict.get pid posts); [|done].
    destruct (lengths_of posts post_ids) as [ls|]; [|done].
    intros [= <-]. simpl. by rewrite (IH ls).
Qed.

(** The assignments of [print_statistics] compute [statistics_of] on what
    the lookups return, and leave the store [touched], also when they
    raise. *)
Lemma compute_statistics_spec (post_ids : list string) (st : store) :
  compute_statistics post_ids st
  = (statistics_of post_ids (posts st)
       (λ pid, PyDict.get_or ∅ pid (post_to_symptoms st))
       (λ pid, PyDict.get_or [] pid (post_to_all_annotations st)),
     touched post_ids st).
Proof.
  unfold compute_statistics, statistics_of, touched.
  unfold mbind at 1, M_bind at 1, bind at 1. rewrite for_each_explanations.
  unfold mbind at 1, M_bind at 1, bind at 1. rewrite for_each_symptoms. simpl.
  unfold mbind at 1, M_bind at 1, bind at 1. rewrite for_each_posts. cbn [posts].
  destruct (lengths_of (posts st) post_ids) as [lengths|e]; simpl; [|done].
  unfold mbind at 1, M_bind at 1, bind at 1, lift at 1.
  destruct (true_divide _ _) as [avg|e]; simpl; [|done].
  unfold mbind at 1, M_bind at 1, bind at 1, lift at 1.
  destruct (PyBuiltin.min lengths) as [lo|e]; simpl; [|done].
  unfold mbind at 1, M_bind at 1, bind at 1, lift at 1.
  destruct (PyBuiltin.max lengths) as [hi|e]; simpl; [|done].
  unfold mbind at 1, M_bind at 1, bind at 1, lift at 1.
  destruct (PyStatistics.median lengths) as [med|e]; simpl; [|done].
  unfold mbind at 1, M_bind at 1, bind at 1, std_dev_of.
  destruct (1 <? len post_ids).
  - unfold mbind at 1, M_bind at 1, bind at 1, lift at 1.
    destruct (PyStatistics.stdev lengths) as [sd|e]; simpl; [|done].
    unfold mbind at 1, M_bind at 1, bind at 1. rewrite for_each_symptoms. simpl.
    unfold ret. rewrite touch_all_idem. by setoid_rewrite touch_all_get_or.
  - simpl.
    unfold mbind at 1, M_bind at 1, bind at 1. rewrite for_each_symptoms. simpl.
    unfold ret. rewrite touch_all_idem. by setoid_rewrite touch_all_get_or.
Qed.

Lemma string_app_assoc (s1 s2 s3 : string) : (s1 +:+ s2) +:+ s3 = s1 +:+ (s2 +:+ s3).
Proof.
  induction s1 as [|a s1 IH]; [done|].
  change (String a ((s1 +:+ s2) +:+ s3) = String a (s1 +:+ (s2 +:+ s3))).
  by rewrite IH.
Qed.

Lemma string_app_nil_r (s : string) : s +:+ "" = s.
Proof.
  induction s as [|a s IH]; [done|].
  change (String a (s +:+ "") = String a s). by rewrite IH.
Qed.

Lemma print_all_spec (lines : list string) (st : store) :
  print_all lines st = (Ok tt, with_stdout (stdout st +:+ printed lines) st).
Proof.
  revert st. induction lines as [|line lines IH]; intros st.
  - simpl. rewrite string_app_nil_r. by destruct st.
  - simpl. unfold mbind, M_bind, bind, print at 1. rewrite IH.
    unfold with_stdout. simpl. by rewrite !string_app_assoc.
Qed.

(** The whole of [print_statistics] in terms of [statistics_of]. *)
Lemma print_statistics_spec (post_ids : list string) (st : store) :
  print_statistics post_ids st
  = match statistics_of post_ids (posts st)
            (λ pid, PyDict.get_or ∅ pid (post_to_symptoms st))
            (λ pid, PyDict.get_or [] pid (post_to_all_annotations st)) with
    | Ok s =>
        (Ok tt, with_stdout (stdout st +:+ printed (statistics_lines s))
                            (touched post_ids st))
    | Raise e => (Raise e, touched post_ids st)
    end.
Proof.
  unfold print_statistics, mbind, M_bind, bind.
  rewrite compute_statistics_spec.
  destruct (statistics_of _ _ _ _) as [s|e]; [|done].
  by rewrite print_all_spec.
Qed.

(** C2, as stated, fails: reporting over an identifier that a grouping
    lacks stores the identifier in the grouping. *)
Lemma print_statistics_stores_absent_ids :
  let st := Store [("p1", "a b c")] [] [] "" in
  let st' := (print_statistics ["p1"] st).2 in
  (print_statistics ["p1"] st).1 = Ok tt
  ∧ post_to_symptoms st' = [("p1", ∅)]
  ∧ post_to_all_annotations st' = [("p1", [])]
  ∧ post_to_symptoms st' ≠ post_to_symptoms st
  ∧ post_to_all_annotations st' ≠ post_to_all_annotations st.
Proof. vm_compute. repeat split; discriminate. Qed.

(** C2, amended.  [print_statistics] never changes the post map, and never
    changes or removes an entry of a grouping; each grouping gains one
    entry with an empty value for every identifier of the list that it
    lacked, in order of first occurrence, so that every identifier reads
    in it as before.  This holds whether the call returns or raises. *)
Theorem print_statistics_frame (post_ids : list string) (st : store) :
  let st' := (print_statistics post_ids st).2 in
  let new_symptoms := fresh_keys (PyDict.keys (post_to_symptoms st)) post_ids in
  let new_annotations := fresh_keys (PyDict.keys (post_to_all_annotations st)) post_ids in
  posts st' = posts st
  ∧ post_to_symptoms st' = post_to_symptoms st ++ ((λ k, (k, ∅)) <$> new_symptoms)
  ∧ post_to_all_annotations st'
    = post_to_all_annotations st ++ ((λ k, (k, [])) <$> new_annotations)
  ∧ (∀ k, k ∈ new_symptoms ↔ k ∈ post_ids ∧ k ∉ PyDict.keys (post_to_symptoms st))
  ∧ (∀ k, k ∈ new_annotations
          ↔ k ∈ post_ids ∧ k ∉ PyDict.keys (post_to_all_annotations st))
  ∧ NoDup new_symptoms ∧ NoDup new_annotations
  ∧ (∀ pid, PyDict.get_or ∅ pid (post_to_symptoms st')
            = PyDict.get_or ∅ pid (post_to_symptoms st))
  ∧ (∀ pid, PyDict.get_or [] pid (post_to_all_annotations st')
            = PyDict.get_or [] pid (post_to_all_annotations st)).
Proof.
  intros st' new_symptoms new_annotations.
  assert (posts st' = posts st
          ∧ post_to_symptoms st' = PyDict.touch_all ∅ post_ids (post_to_symptoms st)
          ∧ post_to_all_annotations st'
            = PyDict.touch_all [] post_ids (post_to_all_annotations st))
    as (Hp & Hs & Ha).
  { unfold st'. rewrite print_statistics_spec.
    by destruct (statistics_of _ _ _ _). }
  rewrite Hp, Hs, Ha.
  split; [done|].
  split; [apply touch_all_fresh|].
  split; [apply touch_all_fresh|].
  split; [apply fresh_keys_spec|].
  split; [apply fresh_keys_spec|].
  split; [apply fresh_keys_spec|].
  split; [apply fresh_keys_spec|].
  split; intros pid; apply touch_all_get_or.
Qed.

(** C3.  Over an empty list of identifiers the two guarded averages are
    zero (printed as 0.00), no division being attempted for them, while
    none of the length statistics is defined: the mean divides by zero and
    the minimum, the maximum and the median reject an empty sequence.
    [print_statistics] therefore raises, here [ZeroDivisionError] from the
    mean, before printing anything and leaves the store as it was. *)
Theorem print_statistics_empty_corpus (st : store) (total : Z) :
  avg_or_zero total (len (@nil string)) = PyInt 0
  ∧ format_2f (avg_or_zero total (len (@nil string))) = "0.00"
  ∧ lengths_of (posts st) [] = Ok []
  ∧ true_divide (PyBuiltin.sum []) (len (@nil string)) = Raise ZeroDivisionError
  ∧ PyBuiltin.min [] = Raise ValueError
  ∧ PyBuiltin.max [] = Raise ValueError
  ∧ PyStatistics.median [] = Raise StatisticsError
  ∧ print_statistics [] st = (Raise ZeroDivisionError, st).
Proof.
  repeat split.
Qed.

(** ** The symptom distribution *)

Lemma incr_get_or (counter : list (string * Z)) (s s' : string) :
  PyDict.get_or 0 s (PyCounter.incr counter s')
  = PyDict.get_or 0 s counter + (if decide (s = s') then 1 else 0).
Proof.
  unfold PyCounter.incr. destruct (decide (s = s')) as [->|Hne].
  - by rewrite get_or_set_eq.
  - rewrite get_or_set_ne by done. lia.
Qed.

Lemma fold_incr_get_or (l : list string) (counter : list (string * Z)) (s : string) :
  PyDict.get_or 0 s (fold_left PyCounter.incr l counter)
  = PyDict.get_or 0 s counter + len (filter (λ x, s = x) l).
Proof.
  revert counter. induction l as [|x l IH]; intros counter; simpl.
  - unfold len. simpl. lia.
  - rewrite IH, incr_get_or, filter_cons. unfold len.
    destruct (decide (s = x)); simpl; lia.
Qed.

Lemma NoDup_filter_eq_length (l : list string) (s : string) :
  NoDup l → length (filter (λ x, s = x) l) = if decide (s ∈ l) then 1%nat else 0%nat.
Proof.
  induction 1 as [|x l Hx Hnd IH]; [done|].
  rewrite filter_cons. destruct (decide (s = x)) as [->|Hne]; simpl.
  - rewrite IH, decide_False by done. rewrite decide_True; [done|].
    apply elem_of_cons. by left.
  - rewrite IH. destruct (decide (s ∈ l)) as [Hin|Hnin].
    + rewrite decide_True; [done|]. apply elem_of_cons. by right.
    + rewrite decide_False; [done|]. rewrite elem_of_cons. naive_solver.
Qed.

Lemma fold_sets_get_or (sets : list (gset string)) (counter : list (string * Z))
    (s : string) :
  PyDict.get_or 0 s
    (fold_left (λ counter symptoms, fold_left PyCounter.incr (elements symptoms) counter)
               sets counter)
  = PyDict.get_or 0 s counter + len (filter (λ symptoms, s ∈ symptoms) sets).
Proof.
  revert counter. induction sets as [|S sets IH]; intros counter; simpl.
  - unfold len. simpl. lia.
  - rewrite IH, fold_incr_get_or, filter_cons. unfold len.
    rewrite NoDup_filter_eq_length by apply NoDup_elements.
    destruct (decide (s ∈ S)) as [Hin|Hnin].
    + rewrite decide_True by (by apply elem_of_elements). simpl. lia.
    + rewrite decide_False by (by rewrite elem_of_elements). lia.
Qed.

Lemma count_symptoms_values (d : symptoms_dict) (s : string) :
  PyDict.get_or 0 s (count_symptoms d)
  = len (filter (λ symptoms, s ∈ symptoms) (PyDict.values d)).
Proof. unfold count_symptoms. by rewrite fold_sets_get_or. Qed.

(** In a dict, the entries are the keys with what they read as. *)
Lemma filter_keys_values (c : string) (d : symptoms_dict) :
  NoDup (PyDict.keys d) →
  length (filter (λ pid, c ∈ PyDict.get_or ∅ pid d) (PyDict.keys d))
  = length (filter (λ symptoms, c ∈ symptoms) (PyDict.values d)).
Proof.
  unfold PyDict.keys, PyDict.values.
  induction d as [|[k v] d IH]; [done|].
  rewrite !fmap_cons. simpl. intros [Hk Hnd]%NoDup_cons.
  rewrite !filter_cons, get_or_cons_eq.
  assert (filter (λ pid, c ∈ PyDict.get_or ∅ pid ((k, v) :: d)) d.*1
          = filter (λ pid, c ∈ PyDict.get_or ∅ pid d) d.*1) as ->.
  { clear IH Hnd. induction d.*1 as [|pid pids IHp]; [done|].
    apply not_elem_of_cons in Hk as [Hne Hk].
    by rewrite !filter_cons, IHp, get_or_cons_ne by done. }
  destruct (decide (c ∈ v)); simpl; by rewrite IH.
Qed.

Lemma posts_with_count (d : symptoms_dict) (c : string) :
  NoDup (PyDict.keys d) → PyDict.get_or 0 c (count_symptoms d) = posts_with c d.
Proof.
  intros Hnd. rewrite count_symptoms_values. unfold posts_with, len.
  by rewrite filter_keys_values.
Qed.

(** The counter stores the categories in the order in which the loops
    first meet them. *)
Lemma fold_incr_keys (l ks : list string) (counter : list (string * Z)) :
  PyDict.keys counter = reverse (remove_dups (reverse ks)) →
  PyDict.keys (fold_left PyCounter.incr l counter)
  = reverse (remove_dups (reverse (ks ++ l))).
Proof.
  revert ks counter. induction l as [|x l IH]; intros ks counter Hk; simpl.
  - by rewrite app_nil_r.
  - rewrite (IH (ks ++ [x])).
    + by rewrite <- app_assoc.
    + by apply keys_set_first_occurrence.
Qed.

Lemma count_symptoms_keys (d : symptoms_dict) :
  PyDict.keys (count_symptoms d) = reverse (remove_dups (reverse (encounters d))).
Proof.
  unfold count_symptoms, encounters.
  change (concat (elements <$> PyDict.values d))
    with ([] ++ concat (elements <$> PyDict.values d)).
  assert (PyDict.keys (@nil (string * Z)) = reverse (remove_dups (reverse []))) as H0
    by done.
  revert H0. generalize (@nil string) as ks. generalize (@nil (string * Z)) as counter.
  induction (PyDict.values d) as [|S sets IH]; intros counter ks Hk.
  - simpl. by rewrite app_nil_r.
  - rewrite fmap_cons. simpl. rewrite app_assoc.
    apply IH. by apply fold_incr_keys.
Qed.

Lemma elem_of_encounters (d : symptoms_dict) (c : string) :
  NoDup (PyDict.keys d) → c ∈ encounters d ↔ 0 < posts_with c d.
Proof.
  intros Hnd. unfold posts_with, len. rewrite filter_keys_values by done.
  unfold encounters. induction (PyDict.values d) as [|S sets IH].
  - simpl. rewrite elem_of_nil. lia.
  - rewrite fmap_cons. simpl. rewrite elem_of_app, elem_of_elements, IH, filter_cons.
    destruct (decide (c ∈ S)); simpl; [|naive_solver]. split; [lia | by left].
Qed.

Lemma get_Some_elem_of {V : Type} (d : list (string * V)) (k : string) (v : V) :
  NoDup (PyDict.keys d) → (k, v) ∈ d ↔ PyDict.get k d = Some v.
Proof.
  unfold PyDict.keys. induction d as [|[k' v'] d IH]; simpl.
  - intros _. rewrite elem_of_nil. naive_solver.
  - intros [Hk Hnd]%NoDup_cons. rewrite elem_of_cons.
    destruct (decide (k' = k)) as [->|Hne].
    + split; [|intros [= ->]; by left].
      intros [[= ->]|Hin]; [done|]. exfalso. apply Hk.
      apply list_elem_of_fmap. by exists (k, v).
    + rewrite <- IH by done. naive_solver.
Qed.

(** *** The ranking *)

Lemma insert_desc_Permutation (x : string * Z) (l : list (string * Z)) :
  PyCounter.insert_desc x l ≡ₚ x :: l.
Proof.
  induction l as [|y l IH]; simpl; [done|].
  destruct (x.2 <? y.2); [|done].
  rewrite IH. apply Permutation_swap.
Qed.

Lemma most_common_Permutation (counter : list (string * Z)) :
  PyCounter.most_common counter ≡ₚ counter.
Proof.
  unfold PyCounter.most_common. induction counter as [|x counter IH]; simpl; [done|].
  by rewrite insert_desc_Permutation, IH.
Qed.

Lemma insert_desc_sorted (x : string * Z) (l : list (string * Z)) :
  StronglySorted ranks_before l → StronglySorted ranks_before (PyCounter.insert_desc x l).
Proof.
  induction 1 as [|y l Hs IH Hy]; simpl.
  - apply SSorted_cons; [apply SSorted_nil | apply Forall_nil_2].
  - destruct (x.2 <? y.2) eqn:Hlt.
    + apply SSorted_cons; [done|].
      rewrite insert_desc_Permutation. apply Forall_cons. split; [|done].
      unfold ranks_before. lia.
    + apply SSorted_cons; [by apply SSorted_cons|].
      apply Forall_cons. split; [unfold ranks_before; lia|].
      eapply Forall_impl; [exact Hy|]. unfold ranks_before. intros z Hz. lia.
Qed.

Lemma most_common_sorted (counter : list (string * Z)) :
  StronglySorted ranks_before (PyCounter.most_common counter).
Proof.
  unfold PyCounter.most_common. induction counter as [|x counter IH]; simpl.
  - apply SSorted_nil.
  - by apply insert_desc_sorted.
Qed.

Lemma insert_desc_stable (n : Z) (x : string * Z) (l : list (string * Z)) :
  filter (λ e, e.2 = n) (PyCounter.insert_desc x l) = filter (λ e, e.2 = n) (x :: l).
Proof.
  induction l as [|y l IH]; simpl; [done|].
  destruct (x.2 <? y.2) eqn:Hlt; [|done].
  rewrite filter_cons, IH, !filter_cons.
  destruct (decide (y.2 = n)), (decide (x.2 = n)); try done. lia.
Qed.

Lemma most_common_stable (n : Z) (counter : list (string * Z)) :
  filter (λ e, e.2 = n) (PyCounter.most_common counter) = filter (λ e, e.2 = n) counter.
Proof.
  unfold PyCounter.most_common. induction counter as [|x counter IH]; simpl; [done|].
  by rewrite insert_desc_stable, !filter_cons, IH.
Qed.

Lemma print_symptom_distribution_spec (st : store) :
  print_symptom_distribution st
  = (Ok tt,
     with_stdout
       (stdout st +:+
        printed ("Posts per symptom (status=1 only):"
                 :: (distribution_line
                       <$> PyCounter.most_common (count_symptoms (post_to_symptoms st)))))
       st).
Proof.
  unfold print_symptom_distribution.
  change (print "Posts per symptom (status=1 only):";;
          print_all (map distribution_line
                       (PyCounter.most_common (count_symptoms (post_to_symptoms st)))))
    with (print_all ("Posts per symptom (status=1 only):"
                     :: map distribution_line
                          (PyCounter.most_common (count_symptoms (post_to_symptoms st))))).
  by rewrite print_all_spec.
Qed.

(** C8.  For a confirmed-symptom grouping (a dict: one entry per post),
    the distribution block prints one line per category that occurs in
    some post's set; the count printed for a category is the number of
    posts whose set holds it; the lines are in non-increasing order of
    count; and categories with equal counts keep the order they have in
    the counter, which is that of their first encounter by the loops over
    the posts and their sets. *)
Theorem symptom_distribution_ranking (st : store) :
  NoDup (PyDict.keys (post_to_symptoms st)) →
  let d := post_to_symptoms st in
  let counter := count_symptoms d in
  let ranking := PyCounter.most_common counter in
  print_symptom_distribution st
    = (Ok tt,
       with_stdout
         (stdout st +:+
          printed ("Posts per symptom (status=1 only):" :: (distribution_line <$> ranking)))
         st)
  ∧ (∀ c n, (c, n) ∈ ranking ↔ 0 < n ∧ n = posts_with c d)
  ∧ NoDup ranking.*1
  ∧ StronglySorted ranks_before ranking
  ∧ (∀ n, filter (λ e, e.2 = n) ranking = filter (λ e, e.2 = n) counter)
  ∧ PyDict.keys counter = reverse (remove_dups (reverse (encounters d))).
Proof.
  intros Hnd d counter ranking. unfold d in *. clear d.
  assert (NoDup (PyDict.keys counter)) as Hndc.
  { unfold counter. rewrite count_symptoms_keys, reverse_Permutation.
    apply NoDup_remove_dups. }
  split; [apply print_symptom_distribution_spec|].
  split.
  { intros c n. unfold ranking. rewrite most_common_Permutation.
    rewrite get_Some_elem_of by done.
    pose proof (posts_with_count (post_to_symptoms st) c Hnd) as Hcount.
    pose proof (elem_of_encounters (post_to_symptoms st) c Hnd) as Henc.
    assert (c ∈ PyDict.keys counter ↔ 0 < posts_with c (post_to_symptoms st)) as Hkey.
    { unfold counter. rewrite count_symptoms_keys, elem_of_reverse, elem_of_remove_dups,
        elem_of_reverse. done. }
    fold counter in Hcount. unfold PyDict.get_or in Hcount.
    rewrite <- get_Some_keys in Hkey.
    destruct (PyDict.get c counter) as [m|] eqn:Hg; simpl in Hcount.
    - split.
      + intros [= <-]. split; [rewrite Hcount; apply Hkey; eauto | done].
      + intros [_ ->]. by rewrite Hcount.
    - split; [done|]. intros [Hpos ->]. rewrite <- Hcount in Hpos. lia. }
  split.
  { unfold ranking. by rewrite most_common_Permutation. }
  split; [apply most_common_sorted|].
  split; [intros n; apply most_common_stable|].
  apply count_symptoms_keys.
Qed.

Lemma symptom_distribution_ranking_witness :
  let st := loaded [] tie_annotations in
  NoDup (PyDict.keys (post_to_symptoms st))
  ∧ (print_symptom_distribution st).1 = Ok tt
  ∧ StronglySorted ranks_before
      (PyCounter.most_common (count_symptoms (post_to_symptoms st))).
Proof.
  intros st.
  assert (NoDup (PyDict.keys (post_to_symptoms st))) as Hnd.
  { apply (bool_decide_unpack _). vm_compute. reflexivity. }
  split; [exact Hnd|].
  destruct (symptom_distribution_ranking st Hnd) as (Hprint & _ & _ & Hsorted & _).
  split; [by rewrite Hprint | exact Hsorted].
Defined.

Example tie_ranking :
  PyCounter.most_common (count_symptoms (post_to_symptoms (loaded [] tie_annotations)))
  = [("FATIGUE", 2); ("ANHEDONIA", 1); ("PSYCHOMOTOR", 1)].
Proof. vm_compute. reflexivity. Qed.

(** ** Scenario A *)

(** C1.  For the two posts and three annotation rows of Scenario A the
    pipeline reports: 2 posts, 3 explanations, 1.50 explanations and 1.00
    symptoms per post, no hard negative, post lengths 3 and 5 with mean
    4.00, median 4 (the float 4.0), minimum 3 and maximum 5, and one post
    for each of DEPRESSED_MOOD and WORTHLESSNESS. *)
Theorem scenario_A_report :
  let st := loaded scenario_A_posts scenario_A_annotations in
  let post_ids := PyDict.keys (posts st) in
  (∃ s, (compute_statistics post_ids st).1 = Ok s
        ∧ n_of_posts s = 2
        ∧ n_of_explanations s = 3
        ∧ avg_explanations_per_post s = PyFloat (3 # 2)
        ∧ format_2f (avg_explanations_per_post s) = "1.50"
        ∧ avg_symptoms_per_post s = PyFloat 1
        ∧ format_2f (avg_symptoms_per_post s) = "1.00"
        ∧ n_of_hard_negatives s = 0
        ∧ post_lengths s = [3; 5]
        ∧ avg_length s = 4%Q
        ∧ format_2f (PyFloat (avg_length s)) = "4.00"
        ∧ median_length s = PyFloat 4
        ∧ min_length s = 3
        ∧ max_length s = 5)
  ∧ PyCounter.most_common (count_symptoms (post_to_symptoms st))
    = [("DEPRESSED_MOOD", 1); ("WORTHLESSNESS", 1)]
  ∧ (main scenario_A_posts scenario_A_annotations).1 = Ok tt
  ∧ stdout (main scenario_A_posts scenario_A_annotations).2
    = printed
        [ "Total number of posts: 2";
          "Total number of explanations (all status): 3";
          "Avg. number of explanations per post: 1.50";
          "Avg. number of symptoms per post (status=1 only): 1.00";
          "Number of hard negatives: 0";
          "Avg. length of post (in words): 4.00";
          "Median length of post (in words): 4.0";
          "Std. dev. of post length (in words): 1.41";
          "Min. length of post (in words): 3";
          "Max. length of post (in words): 5";
          "";
          "Posts per symptom (status=1 only):";
          "  DEPRESSED_MOOD: 1";
          "  WORTHLESSNESS: 1" ].
Proof.
  intros st post_ids. split.
  - eexists. split; [vm_compute; reflexivity|]. vm_compute. repeat split.
  - vm_compute. repeat split.
Qed.

(** ** The printed form of the numbers *)
























(** The median of an odd number of values is one of them, an int; that of
    an even number is a float. *)
Lemma median_kind (lengths : list Z) (med : py_num) :
  PyStatistics.median lengths = Ok med →
  if Nat.odd (length lengths) then ∃ z, med = PyInt z else ∃ x, med = PyFloat x.
Proof.
  unfold PyStatistics.median.
  assert (length (PyBuiltin.sorted lengths) = length lengths) as ->.
  { unfold PyBuiltin.sorted. induction lengths as [|x l IH]; [done|]. simpl.
    rewrite <- IH. generalize (foldr PyBuiltin.insert_asc [] l) as l'.
    induction l' as [|y l' IH']; [done|]. simpl.
    destruct (y <? x); simpl; by rewrite ?IH'. }
  destruct (length lengths =? 0)%nat; [done|].
  destruct (length lengths `mod` 2 =? 1)%nat eqn:E.
  - apply Nat.eqb_eq in E. intros [= <-].
    rewrite <- Nat.bit0_mod, Nat.bit0_odd in E. destruct (Nat.odd _); [by eexists | done].
  - apply Nat.eqb_neq in E. intros [= <-].
    rewrite <- Nat.bit0_mod, Nat.bit0_odd in E. destruct (Nat.odd _); [done | by eexists].
Qed.

(** ** How the reporter ends *)

Lemma lengths_of_first_missing (posts : posts_dict) (post_ids : list string) :
  lengths_of posts post_ids
  = match first_missing posts post_ids with
    | Some pid => Raise (KeyError pid)
    | None => Ok ((λ pid, len (PyBuiltin.split (PyDict.get_or "" pid posts))) <$> post_ids)
    end.
Proof.
  induction post_ids as [|pid post_ids IH]; [done|].
  cbn [lengths_of first_missing].
  destruct (PyDict.get pid posts) as [text|] eqn:Hg.
  - rewrite decide_True by (apply get_Some_keys; eauto).
    rewrite IH. destruct (first_missing posts post_ids); [done|].
    assert (PyDict.get_or "" pid posts = text) as Htext
      by (unfold PyDict.get_or; by rewrite Hg).
    by rewrite fmap_cons, Htext.
  - by rewrite decide_False by (by apply get_None_keys).
Qed.

Lemma sorted_length (xs : list Z) : length (PyBuiltin.sorted xs) = length xs.
Proof.
  unfold PyBuiltin.sorted. induction xs as [|x xs IH]; [done|].
  cbn [foldr length]. rewrite <- IH.
  generalize (foldr PyBuiltin.insert_asc [] xs) as l.
  induction l as [|y l IHl]; [done|].
  cbn [PyBuiltin.insert_asc]. destruct (y <? x); cbn [length]; by rewrite ?IHl.
Qed.

Lemma median_defined (xs : list Z) :
  xs ≠ [] → ∃ med, PyStatistics.median xs = Ok med.
Proof.
  intros Hne. unfold PyStatistics.median. rewrite sorted_length.
  destruct xs as [|x xs]; [done|]. cbn [length Nat.eqb].
  destruct (_ =? _)%nat; eauto.
Qed.

Lemma stdev_defined (xs : list Z) :
  1 < len xs → ∃ sd, PyStatistics.stdev xs = Ok sd.
Proof.
  intros Hn. unfold PyStatistics.stdev, PyStatistics.ss. fold (len xs).
  destruct (len xs =? 0) eqn:E0; [lia|].
  destruct (len xs <? 2) eqn:E2; [lia|]. eauto.
Qed.

(** With at least one identifier, all of them in the post map, every
    statistic is defined. *)
Lemma statistics_of_defined (post_ids : list string) (posts : posts_dict)
    (symptoms_of : string → gset string)
    (explanations_of : string → list (string * string)) :
  post_ids ≠ [] → first_missing posts post_ids = None →
  ∃ s, statistics_of post_ids posts symptoms_of explanations_of = Ok s.
Proof.
  intros Hne Hmiss. unfold statistics_of.
  rewrite lengths_of_first_missing, Hmiss.
  remember ((λ pid, len (PyBuiltin.split (PyDict.get_or "" pid posts))) <$> post_ids)
    as lengths eqn:Hl.
  assert (length lengths = length post_ids) as Hlen by (subst lengths; apply length_fmap).
  clear Hl.
  assert (lengths ≠ []) as Hlne.
  { intros Hnil. rewrite Hnil in Hlen. by destruct post_ids. }
  assert (len post_ids ≠ 0) as Hn.
  { unfold len. destruct post_ids; [done|]. cbn [length]. lia. }
  destruct (median_defined lengths Hlne) as [med Hmed].
  assert (∃ sd, std_dev_of (len post_ids) lengths = Ok sd) as [sd Hsd].
  { unfold std_dev_of. destruct (1 <? len post_ids) eqn:E1; [|eauto].
    destruct (stdev_defined lengths) as [sd ->]; [|cbn; eauto].
    unfold len in *. rewrite Hlen. lia. }
  unfold true_divide. destruct (len post_ids =? 0) eqn:E0; [lia|].
  destruct lengths as [|l0 lengths']; [done|].
  unfold mbind, result_bind. cbn [PyBuiltin.min PyBuiltin.max].
  rewrite Hmed, Hsd. eauto.
Qed.

Lemma statistics_of_outcome (post_ids : list string) (posts : posts_dict)
    (symptoms_of : string → gset string)
    (explanations_of : string → list (string * string)) :
  match statistics_of post_ids posts symptoms_of explanations_of with
  | Ok _ => outcome_of posts post_ids = Ok tt
  | Raise e => outcome_of posts post_ids = Raise e
  end.
Proof.
  unfold outcome_of. destruct post_ids as [|pid post_ids]; [done|].
  destruct (first_missing posts (pid :: post_ids)) as [missing|] eqn:Hmiss.
  - unfold statistics_of. by rewrite lengths_of_first_missing, Hmiss.
  - destruct (statistics_of_defined (pid :: post_ids) posts symptoms_of explanations_of)
      as [s ->]; done.
Qed.

(** X1.  [print_statistics] ends in one of three ways, decided by its
    identifier list and the post map alone: with no identifier it raises
    [ZeroDivisionError]; else, if some identifier is not a key of the post
    map, it raises [KeyError] for the first such identifier; else it
    returns.  [ValueError] and [StatisticsError] never surface, and a call
    that raises has printed nothing. *)
Theorem print_statistics_outcome (post_ids : list string) (st : store) :
  (print_statistics post_ids st).1 = outcome_of (posts st) post_ids
  ∧ match (print_statistics post_ids st).1 with
    | Ok _ => True
    | Raise _ => stdout (print_statistics post_ids st).2 = stdout st
    end.
Proof.
  rewrite print_statistics_spec.
  pose proof (statistics_of_outcome post_ids (posts st)
                (λ pid, PyDict.get_or ∅ pid (post_to_symptoms st))
                (λ pid, PyDict.get_or [] pid (post_to_all_annotations st))) as H.
  destruct (statistics_of _ _ _ _) as [s|e]; by rewrite H.
Qed.

(** ** The whole program *)









Lemma statistics_of_ext (post_ids : list string) (posts : posts_dict)
    (f f' : string → gset string) (g g' : string → list (string * string)) :
  (∀ pid, pid ∈ post_ids → f pid = f' pid) →
  (∀ pid, pid ∈ post_ids → g pid = g' pid) →
  statistics_of post_ids posts f g = statistics_of post_ids posts f' g'.
Proof.
  intros Hf Hg. unfold statistics_of.
  assert ((λ pid, len (g pid)) <$> post_ids = (λ pid, len (g' pid)) <$> post_ids) as ->.
  { apply list_fmap_ext. intros i pid Hi%list_elem_of_lookup_2. by rewrite Hg. }
  assert ((λ pid, if bool_decide (size (f pid) = 0%nat) then 1 else 0) <$> post_ids
          = (λ pid, if bool_decide (size (f' pid) = 0%nat) then 1 else 0) <$> post_ids)
    as ->.
  { apply list_fmap_ext. intros i pid Hi%list_elem_of_lookup_2. by rewrite Hf. }
  assert ((λ pid, Z.of_nat (size (f pid))) <$> post_ids
          = (λ pid, Z.of_nat (size (f' pid))) <$> post_ids) as ->.
  { apply list_fmap_ext. intros i pid Hi%list_elem_of_lookup_2. by rewrite Hf. }
  done.
Qed.

(** X4.  Annotation rows whose post identifier is not in the posts file
    have no effect on the statistics block: [print_statistics] ends in the
    same way and prints the same text as if those rows were not in the
    annotations file. *)
Theorem unknown_posts_leave_statistics (post_rows : list post_row)
    (annotation_rows : list annotation_row) :
  let post_ids := PyDict.keys (load_full_posts post_rows) in
  let known := filter (λ r, post_id r ∈ post_ids) annotation_rows in
  (print_statistics post_ids (loaded post_rows annotation_rows)).1
    = (print_statistics post_ids (loaded post_rows known)).1
  ∧ stdout (print_statistics post_ids (loaded post_rows annotation_rows)).2
    = stdout (print_statistics post_ids (loaded post_rows known)).2.
Proof.
  intros post_ids known. rewrite !print_statistics_spec.
  cbn [loaded posts post_to_symptoms post_to_all_annotations stdout].
  rewrite (statistics_of_ext post_ids (load_full_posts post_rows)
             (λ pid, PyDict.get_or ∅ pid (load_annotations annotation_rows).1)
             (λ pid, PyDict.get_or ∅ pid (load_annotations known).1)
             (λ pid, PyDict.get_or [] pid (load_annotations annotation_rows).2)
             (λ pid, PyDict.get_or [] pid (load_annotations known).2)).
  - by destruct (statistics_of _ _ _ _).
  - intros pid Hpid. rewrite !load_annotations_symptoms. unfold known.
    rewrite list_filter_filter_l; [done|]. by intros r [-> _].
  - intros pid Hpid. rewrite !load_annotations_explanations. unfold known.
    rewrite list_filter_filter_l; [done|]. by intros r [-> _].
Qed.

(** ** What a successful report holds *)

Lemma statistics_of_inv (post_ids : list string) (posts : posts_dict)
    (symptoms_of : string → gset string)
    (explanations_of : string → list (string * string)) (s : statistics) :
  statistics_of post_ids posts symptoms_of explanations_of = Ok s →
  lengths_of posts post_ids = Ok (post_lengths s)
  ∧ true_divide (PyBuiltin.sum (post_lengths s)) (len post_ids) = Ok (avg_length s)
  ∧ PyBuiltin.min (post_lengths s) = Ok (min_length s)
  ∧ PyBuiltin.max (post_lengths s) = Ok (max_length s)
  ∧ PyStatistics.median (post_lengths s) = Ok (median_length s)
  ∧ std_dev_of (len post_ids) (post_lengths s) = Ok (std_dev_length s)
  ∧ n_of_posts s = len post_ids
  ∧ n_of_explanations s
    = PyBuiltin.sum ((λ pid, len (explanations_of pid)) <$> post_ids)
  ∧ n_of_hard_negatives s
    = PyBuiltin.sum
        ((λ pid, if bool_decide (size (symptoms_of pid) = 0%nat) then 1 else 0)
           <$> post_ids)
  ∧ avg_explanations_per_post s = avg_or_zero (n_of_explanations s) (len post_ids)
  ∧ avg_symptoms_per_post s
    = avg_or_zero
        (PyBuiltin.sum ((λ pid, Z.of_nat (size (symptoms_of pid))) <$> post_ids))
        (len post_ids).
Proof.
  unfold statistics_of, mbind, result_bind.
  destruct (lengths_of posts post_ids) as [lengths|]; [|done].
  destruct (true_divide _ _) as [avg|] eqn:Havg; [|done].
  destruct (PyBuiltin.min lengths) as [lo|] eqn:Hlo; [|done].
  destruct (PyBuiltin.max lengths) as [hi|] eqn:Hhi; [|done].
  destruct (PyStatistics.median lengths) as [med|] eqn:Hmed; [|done].
  destruct (std_dev_of _ lengths) as [sd|] eqn:Hsd; [|done].
  intros [= <-]. cbn [post_lengths avg_length min_length max_length median_length
                      std_dev_length n_of_posts n_of_explanations n_of_hard_negatives
                      avg_explanations_per_post avg_symptoms_per_post].
  repeat split; assumption.
Qed.

Lemma compute_statistics_inv (post_ids : list string) (st : store) (s : statistics) :
  (compute_statistics post_ids st).1 = Ok s →
  statistics_of post_ids (posts st)
    (λ pid, PyDict.get_or ∅ pid (post_to_symptoms st))
    (λ pid, PyDict.get_or [] pid (post_to_all_annotations st)) = Ok s.
Proof. by rewrite compute_statistics_spec. Qed.



Lemma insert_asc_Permutation (x : Z) (l : list Z) : PyBuiltin.insert_asc x l ≡ₚ x :: l.
Proof.
  induction l as [|y l IH]; [done|].
  cbn [PyBuiltin.insert_asc]. destruct (y <? x); [|done].
  rewrite IH. apply Permutation_swap.
Qed.

Lemma sorted_Permutation (xs : list Z) : PyBuiltin.sorted xs ≡ₚ xs.
Proof.
  unfold PyBuiltin.sorted. induction xs as [|x xs IH]; [done|].
  cbn [foldr]. by rewrite insert_asc_Permutation, IH.
Qed.

Lemma nth_sorted_elem_of (xs : list Z) (i : nat) :
  (i < length xs)%nat → nth i (PyBuiltin.sorted xs) 0 ∈ xs.
Proof.
  intros Hi. apply (elem_of_Permutation_proper _ _ _ (sorted_Permutation xs)).
  apply list_elem_of_In, nth_In. by rewrite sorted_length.
Qed.

Lemma median_inv (xs : list Z) (med : py_num) :
  PyStatistics.median xs = Ok med →
  if Nat.odd (length xs)
  then ∃ z, med = PyInt z ∧ z ∈ xs
  else ∃ a b, a ∈ xs ∧ b ∈ xs ∧ med = PyFloat (int_true_divide (a + b) 2).
Proof.
  unfold PyStatistics.median. rewrite sorted_length.
  destruct (length xs =? 0)%nat eqn:E0; [done|]. apply Nat.eqb_neq in E0.
  assert (length xs / 2 < length xs)%nat as Hhalf by (apply Nat.div_lt; lia).
  destruct (length xs `mod` 2 =? 1)%nat eqn:E.
  - apply Nat.eqb_eq in E. intros [= <-].
    rewrite <- Nat.bit0_mod, Nat.bit0_odd in E. destruct (Nat.odd _); [|done].
    eexists. split; [done|]. apply (nth_sorted_elem_of xs (length xs / 2)). lia.
  - apply Nat.eqb_neq in E. intros [= <-].
    rewrite <- Nat.bit0_mod, Nat.bit0_odd in E. destruct (Nat.odd _); [done|].
    eexists _, _. split; [|split; [|done]].
    + apply (nth_sorted_elem_of xs (length xs / 2 - 1)). lia.
    + apply (nth_sorted_elem_of xs (length xs / 2)). lia.
Qed.

(** X6.  The median is printed as [str] gives it, without the [.2f]
    format of the neighbouring lines: for an odd number of posts it is the
    length of one of the posts, an int; for an even number it is a float,
    the true quotient by two of the sum of two of the lengths. *)
Theorem median_line_kind (post_ids : list string) (st : store) (s : statistics) :
  (compute_statistics post_ids st).1 = Ok s →
  statistics_lines s !! 6%nat
    = Some ("Median length of post (in words): " +:+ py_str (median_length s))
  ∧ if Nat.odd (length post_ids)
    then ∃ z, median_length s = PyInt z ∧ z ∈ post_lengths s
    else ∃ a b, a ∈ post_lengths s ∧ b ∈ post_lengths s
                ∧ median_length s = PyFloat (int_true_divide (a + b) 2).
Proof.
  intros Hs%compute_statistics_inv%statistics_of_inv.
  destruct Hs as (Hlen & _ & _ & _ & Hmed & _).
  split; [done|]. apply lengths_of_length in Hlen. rewrite <- Hlen.
  by apply median_inv.
Qed.

Lemma median_line_kind_witness :
  let st := loaded scenario_A_posts scenario_A_annotations in
  ∃ s, (compute_statistics ["p1"; "p2"] st).1 = Ok s
       ∧ ∃ a b, median_length s = PyFloat (int_true_divide (a + b) 2).
Proof.
  intros st.
  destruct (compute_statistics ["p1"; "p2"] st).1 as [s|e] eqn:Hs;
    [|vm_compute in Hs; discriminate].
  exists s. split; [reflexivity|].
  destruct (median_line_kind ["p1"; "p2"] st s Hs) as (_ & a & b & _ & _ & Hmed).
  by exists a, b.
Defined.

(** X7.  A report over a single post that the post map holds returns
    normally: minimum, maximum and median are all the length of that post,
    and the standard deviation is the int zero, printed as 0.00;
    [statistics.stdev] is not called. *)
Theorem single_post_report (pid text : string) (st : store) :
  PyDict.get pid (posts st) = Some text →
  let n := len (PyBuiltin.split text) in
  ∃ s, (compute_statistics [pid] st).1 = Ok s
       ∧ n_of_posts s = 1
       ∧ post_lengths s = [n]
       ∧ avg_length s = int_true_divide n 1
       ∧ min_length s = n
       ∧ max_length s = n
       ∧ median_length s = PyInt n
       ∧ std_dev_length s = PyInt 0
       ∧ format_2f (std_dev_length s) = "0.00".
Proof.
  intros Hg n. rewrite compute_statistics_spec. cbn [fst].
  unfold statistics_of. cbn [lengths_of]. rewrite Hg. fold n.
  unfold mbind, result_bind, true_divide, std_dev_of, PyStatistics.median.
  cbn. eexists. split; [done|]. cbn. unfold PyBuiltin.sum. cbn.
  repeat split.
Qed.

Lemma single_post_report_witness :
  let st := Store [("p1", "a b c")] [] [] "" in
  PyDict.get "p1" (posts st) = Some "a b c"
  ∧ ∃ s, (compute_statistics ["p1"] st).1 = Ok s ∧ std_dev_length s = PyInt 0.
Proof.
  intros st.
  assert (PyDict.get "p1" (posts st) = Some "a b c") as Hg by reflexivity.
  split; [exact Hg|].
  destruct (single_post_report "p1" "a b c" st Hg) as (s & Hs & _ & _ & _ & _ & _ & _ & Hsd & _).
  by exists s.
Defined.

Lemma fold_add_start (l : list Z) (a : Z) :
  fold_left Z.add l a = a + fold_left Z.add l 0.
Proof.
  revert a. induction l as [|x l IH]; intros a; cbn [fold_left]; [lia|].
  rewrite (IH (a + x)), (IH (0 + x)). lia.
Qed.

Lemma sum_cons (x : Z) (l : list Z) : PyBuiltin.sum (x :: l) = x + PyBuiltin.sum l.
Proof. unfold PyBuiltin.sum. cbn [fold_left]. rewrite fold_add_start. lia. Qed.

Lemma sum_indicator {A : Type} (P : A → Prop) `{!∀ x, Decision (P x)} (l : list A) :
  PyBuiltin.sum ((λ x, if bool_decide (P x) then 1 else 0) <$> l) = len (filter P l).
Proof.
  induction l as [|x l IH]; [done|].
  rewrite fmap_cons, sum_cons, IH, filter_cons. unfold len.
  destruct (decide (P x)) as [HP|HP].
  - rewrite bool_decide_eq_true_2 by done. cbn [length]. lia.
  - rewrite bool_decide_eq_false_2 by done. lia.
Qed.

Lemma filter_complement_length {A : Type} (P : A → Prop) `{!∀ x, Decision (P x)}
    (l : list A) :
  (length (filter P l) + length (filter (λ x, ¬ P x) l) = length l)%nat.
Proof.
  induction l as [|x l IH]; [done|].
  rewrite !filter_cons. destruct (decide (P x)) as [HP|HP].
  - rewrite decide_False by (intros Hn; by apply Hn). cbn [length]. lia.
  - rewrite decide_True by done. cbn [length]. lia.
Qed.

Lemma hard_negatives_count (post_ids : list string) (f : string → gset string) :
  PyBuiltin.sum ((λ pid, if bool_decide (size (f pid) = 0%nat) then 1 else 0) <$> post_ids)
  = len (filter (λ pid, f pid = ∅) post_ids).
Proof.
  rewrite sum_indicator. unfold len. f_equal. f_equal.
  apply list_filter_iff. intros pid. rewrite size_empty_iff. by unfold_leibniz.
Qed.

(** X8.  The hard negatives are counted over the identifier list: each
    identifier whose confirmed-symptom set reads as empty, be it stored
    empty or absent from the grouping, counts once.  With the identifiers
    whose set is not empty they make up the number of posts. *)
Theorem hard_negatives_complement (post_ids : list string) (st : store) (s : statistics) :
  (compute_statistics post_ids st).1 = Ok s →
  let symptoms_of pid := PyDict.get_or ∅ pid (post_to_symptoms st) in
  n_of_hard_negatives s = len (filter (λ pid, symptoms_of pid = ∅) post_ids)
  ∧ n_of_hard_negatives s + len (filter (λ pid, symptoms_of pid ≠ ∅) post_ids)
    = n_of_posts s
  ∧ 0 ≤ n_of_hard_negatives s ≤ n_of_posts s.
Proof.
  intros Hs%compute_statistics_inv%statistics_of_inv symptoms_of.
  destruct Hs as (_ & _ & _ & _ & _ & _ & Hn & _ & Hhard & _).
  assert (n_of_hard_negatives s = len (filter (λ pid, symptoms_of pid = ∅) post_ids))
    as Hcount.
  { rewrite Hhard. apply hard_negatives_count. }
  pose proof (filter_complement_length (λ pid, symptoms_of pid = ∅) post_ids) as Hc.
  rewrite Hcount, Hn. unfold len in *. split; [done|]. split; lia.
Qed.

Lemma hard_negatives_complement_witness :
  let st := loaded scenario_A_posts scenario_A_annotations in
  ∃ s, (compute_statistics ["p1"; "p2"; "p1"] st).1 = Ok s
       ∧ 0 ≤ n_of_hard_negatives s ≤ n_of_posts s.
Proof.
  intros st.
  destruct (compute_statistics ["p1"; "p2"; "p1"] st).1 as [s|e] eqn:Hs;
    [|vm_compute in Hs; discriminate].
  exists s. split; [reflexivity|].
  by destruct (hard_negatives_complement ["p1"; "p2"; "p1"] st s Hs) as (_ & _ & Hb).
Defined.

(** ** Totals of a run of [main] *)

Lemma filter_or_length {A : Type} (P Q : A → Prop)
    `{!∀ x, Decision (P x)} `{!∀ x, Decision (Q x)} (l : list A) :
  (∀ x, P x → Q x → False) →
  length (filter (λ x, P x ∨ Q x) l) = (length (filter P l) + length (filter Q l))%nat.
Proof.
  intros Hdisj. induction l as [|x l IH]; [done|].
  rewrite !filter_cons.
  destruct (decide (P x)) as [HP|HP], (decide (Q x)) as [HQ|HQ].
  - destruct (Hdisj x HP HQ).
  - rewrite decide_True by (by left). cbn [length]. lia.
  - rewrite decide_True by (by right). cbn [length]. lia.
  - rewrite decide_False by (intros [?|?]; done). done.
Qed.

(** Summing, over distinct identifiers, the rows of each gives the rows of
    all. *)
Lemma sum_rows_per_post (E : annotation_row → Prop) `{!∀ r, Decision (E r)}
    (rows : list annotation_row) (post_ids : list string) :
  NoDup post_ids →
  PyBuiltin.sum
    ((λ pid, len (filter (λ r, post_id r = pid ∧ E r) rows)) <$> post_ids)
  = len (filter (λ r, E r ∧ post_id r ∈ post_ids) rows).
Proof.
  induction 1 as [|pid post_ids Hpid Hnd IH].
  - cbn. unfold len. rewrite (list_filter_iff _ (λ _, False)).
    + by induction rows.
    + intros r. rewrite elem_of_nil. naive_solver.
  - rewrite fmap_cons, sum_cons, IH. unfold len.
    rewrite (list_filter_iff (λ r, E r ∧ post_id r ∈ pid :: post_ids)
               (λ r, (post_id r = pid ∧ E r) ∨ (E r ∧ post_id r ∈ post_ids))).
    + rewrite filter_or_length; [lia|]. intros r [-> _] [_ Hin]. done.
    + intros r. rewrite elem_of_cons. naive_solver.
Qed.

Lemma list_to_set_empty_iff (l : list string) :
  (list_to_set l : gset string) = ∅ ↔ l = [].
Proof.
  split; [|by intros ->]. destruct l as [|x l]; [done|]. intros Hempty.
  assert (x ∈ (list_to_set (x :: l) : gset string)) as Hx
    by (apply elem_of_list_to_set, elem_of_cons; by left).
  rewrite Hempty in Hx. by apply not_elem_of_empty in Hx.
Qed.

Lemma filter_nil_iff {A : Type} (P : A → Prop) `{!∀ x, Decision (P x)} (l : list A) :
  filter P l = [] ↔ ∀ x, x ∈ l → ¬ P x.
Proof.
  induction l as [|x l IH].
  - split; [intros _ y Hy; by apply elem_of_nil in Hy | done].
  - rewrite filter_cons. destruct (decide (P x)) as [HP|HP].
    + split; [done|]. intros Hall. destruct (Hall x); [apply elem_of_cons; by left | done].
    + rewrite IH. split.
      * intros Hall y [->|Hy]%elem_of_cons; [done | by apply Hall].
      * intros Hall y Hy. apply Hall, elem_of_cons. by right.
Qed.

(** A post reads as without confirmed symptom exactly when no row confirms
    one for it. *)
Lemma symptoms_empty_iff (rows : list annotation_row) (pid : string) :
  PyDict.get_or ∅ pid (load_annotations rows).1 = ∅
  ↔ pid ∉ post_id <$> filter is_confirmed rows.
Proof.
  rewrite load_annotations_symptoms, list_to_set_empty_iff.
  assert (∀ l : list annotation_row, DSM5_symptom <$> l = [] ↔ l = []) as Hnil.
  { intros l. split; [apply fmap_nil_inv | by intros ->]. }
  rewrite Hnil, filter_nil_iff, list_elem_of_fmap.
  setoid_rewrite list_elem_of_filter. split.
  - intros Hall (r & -> & Hc & Hin). by apply (Hall r Hin).
  - intros Hnone r Hin [<- Hc]. apply Hnone. by exists r.
Qed.

(** X9.  In a run of [main] that reports, the post count is the number of
    distinct identifiers in the posts file; the explanation count is the
    number of annotation rows with status 0 or 1 whose identifier is in
    the posts file; and the hard negatives are the posts for which no row
    confirms a symptom of the taxonomy. *)
Theorem main_totals (post_rows : list post_row) (annotation_rows : list annotation_row)
    (s : statistics) :
  let st := loaded post_rows annotation_rows in
  let post_ids := PyDict.keys (posts st) in
  (compute_statistics post_ids st).1 = Ok s →
  n_of_posts s = len (remove_dups (row_post_id <$> post_rows))
  ∧ n_of_explanations s
    = len (filter (λ r, is_explanation r ∧ post_id r ∈ post_ids) annotation_rows)
  ∧ n_of_hard_negatives s
    = len (filter (λ pid, pid ∉ post_id <$> filter is_confirmed annotation_rows) post_ids).
Proof.
  intros st post_ids Hs%compute_statistics_inv%statistics_of_inv.
  destruct Hs as (_ & _ & _ & _ & _ & _ & Hn & Hexp & Hhard & _).
  assert (post_ids = reverse (remove_dups (reverse (row_post_id <$> post_rows)))) as Hids
    by apply load_full_posts_keys.
  assert (NoDup post_ids) as Hnd.
  { rewrite Hids, reverse_Permutation. apply NoDup_remove_dups. }
  split; [|split].
  - rewrite Hn. unfold len. f_equal. fold post_ids. rewrite Hids, length_reverse.
    apply Permutation_length, NoDup_Permutation; try apply NoDup_remove_dups.
    intros x. by rewrite !elem_of_remove_dups, elem_of_reverse.
  - rewrite Hexp. fold post_ids. rewrite <- sum_rows_per_post by done. f_equal.
    apply list_fmap_ext. intros _ pid _. unfold st. cbn [loaded post_to_all_annotations].
    rewrite load_annotations_explanations. unfold len. by rewrite length_fmap.
  - rewrite Hhard, hard_negatives_count. fold post_ids. unfold len. f_equal. f_equal.
    apply list_filter_iff. intros pid. unfold st. cbn [loaded post_to_symptoms].
    apply symptoms_empty_iff.
Qed.

Lemma main_totals_witness :
  let st := loaded scenario_A_posts scenario_A_annotations in
  ∃ s, (compute_statistics (PyDict.keys (posts st)) st).1 = Ok s
       ∧ n_of_posts s = len (remove_dups (row_post_id <$> scenario_A_posts)).
Proof.
  intros st.
  destruct (compute_statistics (PyDict.keys (posts st)) st).1 as [s|e] eqn:Hs;
    [|vm_compute in Hs; discriminate].
  exists s. split; [reflexivity|].
  by destruct (main_totals scenario_A_posts scenario_A_annotations s Hs) as (Hn & _).
Defined.

(** ** Minimum and maximum *)

Lemma fold_min_spec (l : list Z) (a : Z) :
  let m := fold_left Z.min l a in
  m ≤ a ∧ Forall (λ x, m ≤ x) l ∧ m ∈ a :: l.
Proof.
  revert a. induction l as [|x l IH]; intros a; cbn [fold_left].
  - split; [lia|]. split; [apply Forall_nil_2 | apply elem_of_cons; by left].
  - destruct (IH (Z.min a x)) as (Hle & Hall & Hin). cbv zeta.
    split; [lia|]. split; [apply Forall_cons; split; [lia | done]|].
    apply elem_of_cons in Hin as [Heq|Hin].
    + rewrite Heq. destruct (Z.min_spec a x) as [[_ ->]|[_ ->]].
      * apply elem_of_cons. by left.
      * apply elem_of_cons. right. apply elem_of_cons. by left.
    + apply elem_of_cons. right. apply elem_of_cons. by right.
Qed.

Lemma fold_max_spec (l : list Z) (a : Z) :
  let m := fold_left Z.max l a in
  a ≤ m ∧ Forall (λ x, x ≤ m) l ∧ m ∈ a :: l.
Proof.
  revert a. induction l as [|x l IH]; intros a; cbn [fold_left].
  - split; [lia|]. split; [apply Forall_nil_2 | apply elem_of_cons; by left].
  - destruct (IH (Z.max a x)) as (Hle & Hall & Hin). cbv zeta.
    split; [lia|]. split; [apply Forall_cons; split; [lia | done]|].
    apply elem_of_cons in Hin as [Heq|Hin].
    + rewrite Heq. destruct (Z.max_spec a x) as [[_ ->]|[_ ->]].
      * apply elem_of_cons. right. apply elem_of_cons. by left.
      * apply elem_of_cons. by left.
    + apply elem_of_cons. right. apply elem_of_cons. by right.
Qed.

Lemma lengths_of_nonneg (posts : posts_dict) (post_ids : list string) (lengths : list Z) :
  lengths_of posts post_ids = Ok lengths → Forall (λ x, 0 ≤ x) lengths.
Proof.
  rewrite lengths_of_first_missing. destruct (first_missing _ _); [done|].
  intros [= <-]. apply Forall_fmap, Forall_true. intros pid. cbn. unfold len. lia.
Qed.

(** X10.  In a report, the minimum and the maximum length are lengths of
    posts of the list, every post length lies between them, and none is
    negative. *)
Theorem length_extremes (post_ids : list string) (st : store) (s : statistics) :
  (compute_statistics post_ids st).1 = Ok s →
  min_length s ∈ post_lengths s
  ∧ max_length s ∈ post_lengths s
  ∧ Forall (λ x, min_length s ≤ x ≤ max_length s) (post_lengths s)
  ∧ 0 ≤ min_length s ≤ max_length s.
Proof.
  intros Hs%compute_statistics_inv%statistics_of_inv.
  destruct Hs as (Hlen & _ & Hmin & Hmax & _).
  apply lengths_of_nonneg in Hlen.
  destruct (post_lengths s) as [|x l]; [done|].
  cbn [PyBuiltin.min PyBuiltin.max] in Hmin, Hmax.
  injection Hmin as <-. injection Hmax as <-.
  destruct (fold_min_spec l x) as (Hle & Hall & Hin).
  destruct (fold_max_spec l x) as (Hge & Hall' & Hin'). cbv zeta in *.
  assert (Forall (λ y, fold_left Z.min l x ≤ y ≤ fold_left Z.max l x) (x :: l)) as Hboth.
  { apply Forall_cons. split; [lia|].
    apply Forall_and. by split. }
  repeat split; try done.
  - rewrite Forall_forall in Hlen. by apply Hlen.
  - lia.
Qed.

Lemma length_extremes_witness :
  let st := loaded scenario_A_posts scenario_A_annotations in
  ∃ s, (compute_statistics ["p1"; "p2"] st).1 = Ok s
       ∧ 0 ≤ min_length s ≤ max_length s.
Proof.
  intros st.
  destruct (compute_statistics ["p1"; "p2"] st).1 as [s|e] eqn:Hs;
    [|vm_compute in Hs; discriminate].
  exists s. split; [reflexivity|].
  by destruct (length_extremes ["p1"; "p2"] st s Hs) as (_ & _ & _ & Hb).
Defined.

(** ** Invariants of the aggregator *)

(** X11.  Whatever the annotations file holds, every member of every
    confirmed-symptom set is one of the names of the taxonomy. *)
Theorem confirmed_symptoms_in_taxonomy (rows : list annotation_row) (pid : string) :
  PyDict.get_or ∅ pid (load_annotations rows).1 ⊆ DSM5_SYMPTOM_NAMES.
Proof.
  rewrite load_annotations_symptoms. intros c.
  rewrite elem_of_list_to_set, list_elem_of_fmap.
  intros (r & -> & [[_ Hc] _]%list_elem_of_filter). by destruct Hc as [_ Hmem].
Qed.

Lemma explanations_empty_iff (rows : list annotation_row) (pid : string) :
  PyDict.get_or [] pid (load_annotations rows).2 = []
  ↔ pid ∉ post_id <$> filter is_explanation rows.
Proof.
  rewrite load_annotations_explanations.
  assert (∀ l : list annotation_row, explanation_of <$> l = [] ↔ l = []) as Hnil.
  { intros l. split; [apply fmap_nil_inv | by intros ->]. }
  rewrite Hnil, filter_nil_iff, list_elem_of_fmap.
  setoid_rewrite list_elem_of_filter. split.
  - intros Hall (r & -> & Hc & Hin). by apply (Hall r Hin).
  - intros Hnone r Hin [<- Hc]. apply Hnone. by exists r.
Qed.

Lemma load_annotations_NoDup (rows : list annotation_row) :
  NoDup (PyDict.keys (load_annotations rows).1)
  ∧ NoDup (PyDict.keys (load_annotations rows).2).
Proof.
  destruct (load_annotations_keys rows) as [-> ->].
  split; rewrite reverse_Permutation; apply NoDup_remove_dups.
Qed.

(** X12.  The aggregator stores no empty value: an identifier is a key of
    the confirmed-symptom grouping exactly when a row confirms a symptom
    for it, and then its set is not empty; it is a key of the explanation
    grouping exactly when it has a row with status 0 or 1, and then its
    list is not empty.  Every key of the first grouping is a key of the
    second. *)
Theorem load_annotations_no_empty_entry (rows : list annotation_row) (pid : string) :
  (pid ∈ PyDict.keys (load_annotations rows).1
   ↔ pid ∈ post_id <$> filter is_confirmed rows)
  ∧ (pid ∈ PyDict.keys (load_annotations rows).1
     ↔ PyDict.get_or ∅ pid (load_annotations rows).1 ≠ ∅)
  ∧ (pid ∈ PyDict.keys (load_annotations rows).2
     ↔ pid ∈ post_id <$> filter is_explanation rows)
  ∧ (pid ∈ PyDict.keys (load_annotations rows).2
     ↔ PyDict.get_or [] pid (load_annotations rows).2 ≠ [])
  ∧ PyDict.keys (load_annotations rows).1 ⊆ PyDict.keys (load_annotations rows).2.
Proof.
  destruct (load_annotations_keys rows) as [Hk1 Hk2].
  assert (∀ k, k ∈ PyDict.keys (load_annotations rows).1
               ↔ k ∈ post_id <$> filter is_confirmed rows) as H1.
  { intros k. by rewrite Hk1, elem_of_reverse, elem_of_remove_dups, elem_of_reverse. }
  assert (∀ k, k ∈ PyDict.keys (load_annotations rows).2
               ↔ k ∈ post_id <$> filter is_explanation rows) as H2.
  { intros k. by rewrite Hk2, elem_of_reverse, elem_of_remove_dups, elem_of_reverse. }
  split; [apply H1|]. split.
  { rewrite H1, symptoms_empty_iff.
    destruct (decide (pid ∈ post_id <$> filter is_confirmed rows)); naive_solver. }
  split; [apply H2|]. split.
  { rewrite H2, explanations_empty_iff.
    destruct (decide (pid ∈ post_id <$> filter is_explanation rows)); naive_solver. }
  intros k. rewrite H1, H2, !list_elem_of_fmap.
  intros (r & -> & [Hc Hin]%list_elem_of_filter). exists r. split; [done|].
  apply list_elem_of_filter. split; [by apply is_confirmed_explanation | done].
Qed.

(** X13.  Aggregating two batches of rows one after the other gives, for
    every post, the union of the confirmed-symptom sets and the
    concatenation of the explanation lists of the two batches. *)
Theorem load_annotations_app (rows1 rows2 : list annotation_row) (pid : string) :
  PyDict.get_or ∅ pid (load_annotations (rows1 ++ rows2)).1
    = PyDict.get_or ∅ pid (load_annotations rows1).1
      ∪ PyDict.get_or ∅ pid (load_annotations rows2).1
  ∧ PyDict.get_or [] pid (load_annotations (rows1 ++ rows2)).2
    = PyDict.get_or [] pid (load_annotations rows1).2
      ++ PyDict.get_or [] pid (load_annotations rows2).2.
Proof.
  rewrite !load_annotations_symptoms, !load_annotations_explanations.
  by rewrite !filter_app, !fmap_app, list_to_set_app_L.
Qed.

(** ** Repeating and reordering *)

(** X14.  A second call of [print_statistics] over the same identifiers
    ends as the first did and prints the same block again, and it changes
    neither grouping any further: the first call has stored every
    identifier the groupings lacked. *)
Theorem print_statistics_repeatable (post_ids : list string) (st : store) :
  let r1 := print_statistics post_ids st in
  let r2 := print_statistics post_ids r1.2 in
  r2.1 = r1.1
  ∧ posts r2.2 = posts r1.2
  ∧ post_to_symptoms r2.2 = post_to_symptoms r1.2
  ∧ post_to_all_annotations r2.2 = post_to_all_annotations r1.2
  ∧ ∃ block, stdout r1.2 = stdout st +:+ block ∧ stdout r2.2 = stdout r1.2 +:+ block.
Proof.
  intros r1 r2. unfold r2, r1. clear r1 r2.
  assert (∀ st1, posts st1 = posts st →
            post_to_symptoms st1 = PyDict.touch_all ∅ post_ids (post_to_symptoms st) →
            post_to_all_annotations st1
              = PyDict.touch_all [] post_ids (post_to_all_annotations st) →
            statistics_of post_ids (posts st1)
              (λ pid, PyDict.get_or ∅ pid (post_to_symptoms st1))
              (λ pid, PyDict.get_or [] pid (post_to_all_annotations st1))
            = statistics_of post_ids (posts st)
                (λ pid, PyDict.get_or ∅ pid (post_to_symptoms st))
                (λ pid, PyDict.get_or [] pid (post_to_all_annotations st))
            ∧ touched post_ids st1
              = Store (posts st) (PyDict.touch_all ∅ post_ids (post_to_symptoms st))
                  (PyDict.touch_all [] post_ids (post_to_all_annotations st))
                  (stdout st1)) as Hagain.
  { intros st1 Hp Hs Ha. unfold touched. rewrite Hp, Hs, Ha, !touch_all_idem.
    split; [|done].
    apply statistics_of_ext; intros pid _; apply touch_all_get_or. }
  rewrite (print_statistics_spec post_ids st).
  destruct (statistics_of post_ids (posts st) _ _) as [s|e] eqn:HS; cbn [fst snd].
  - rewrite print_statistics_spec.
    destruct (Hagain (with_stdout (stdout st +:+ printed (statistics_lines s))
                        (touched post_ids st))) as [-> ->]; [reflexivity..|].
    cbn [fst snd with_stdout touched posts post_to_symptoms post_to_all_annotations
         stdout].
    split; [done|]. split; [done|]. split; [done|]. split; [done|].
    by exists (printed (statistics_lines s)).
  - rewrite print_statistics_spec.
    destruct (Hagain (touched post_ids st)) as [-> ->]; [reflexivity..|].
    cbn [fst snd with_stdout touched posts post_to_symptoms post_to_all_annotations
         stdout].
    split; [done|]. split; [done|]. split; [done|]. split; [done|].
    exists "". by rewrite !string_app_nil_r.
Qed.

Lemma statistics_of_ext_sizes (post_ids : list string) (posts : posts_dict)
    (f f' : string → gset string) (g g' : string → list (string * string)) :
  (∀ pid, pid ∈ post_ids → size (f pid) = size (f' pid)) →
  (∀ pid, pid ∈ post_ids → length (g pid) = length (g' pid)) →
  statistics_of post_ids posts f g = statistics_of post_ids posts f' g'.
Proof.
  intros Hf Hg. unfold statistics_of.
  assert ((λ pid, len (g pid)) <$> post_ids = (λ pid, len (g' pid)) <$> post_ids) as ->.
  { apply list_fmap_ext. intros i pid Hi%list_elem_of_lookup_2. unfold len.
    by rewrite Hg. }
  assert ((λ pid, if bool_decide (size (f pid) = 0%nat) then 1 else 0) <$> post_ids
          = (λ pid, if bool_decide (size (f' pid) = 0%nat) then 1 else 0) <$> post_ids)
    as ->.
  { apply list_fmap_ext. intros i pid Hi%list_elem_of_lookup_2. by rewrite Hf. }
  assert ((λ pid, Z.of_nat (size (f pid))) <$> post_ids
          = (λ pid, Z.of_nat (size (f' pid))) <$> post_ids) as ->.
  { apply list_fmap_ext. intros i pid Hi%list_elem_of_lookup_2. by rewrite Hf. }
  done.
Qed.

(** X15.  The statistics block does not depend on the order of the rows
    of the annotations file: over any identifier list, [print_statistics]
    ends the same way and prints the same text for two files that hold the
    same rows in different orders. *)
Theorem statistics_ignore_row_order (post_rows : list post_row)
    (rows rows' : list annotation_row) (post_ids : list string) :
  rows ≡ₚ rows' →
  (print_statistics post_ids (loaded post_rows rows)).1
    = (print_statistics post_ids (loaded post_rows rows')).1
  ∧ stdout (print_statistics post_ids (loaded post_rows rows)).2
    = stdout (print_statistics post_ids (loaded post_rows rows')).2.
Proof.
  intros Hperm. rewrite !print_statistics_spec.
  cbn [loaded posts post_to_symptoms post_to_all_annotations stdout].
  rewrite (statistics_of_ext_sizes post_ids (load_full_posts post_rows)
             (λ pid, PyDict.get_or ∅ pid (load_annotations rows).1)
             (λ pid, PyDict.get_or ∅ pid (load_annotations rows').1)
             (λ pid, PyDict.get_or [] pid (load_annotations rows).2)
             (λ pid, PyDict.get_or [] pid (load_annotations rows').2)).
  - by destruct (statistics_of _ _ _ _).
  - intros pid _. rewrite !load_annotations_symptoms. f_equal.
    apply list_to_set_perm_L. by rewrite Hperm.
  - intros pid _. rewrite !load_annotations_explanations, !length_fmap.
    apply Permutation_length. by rewrite Hperm.
Qed.

Lemma statistics_ignore_row_order_witness :
  scenario_A_annotations ≡ₚ reverse scenario_A_annotations
  ∧ stdout (print_statistics ["p1"; "p2"] (loaded scenario_A_posts scenario_A_annotations)).2
    = stdout (print_statistics ["p1"; "p2"]
                (loaded scenario_A_posts (reverse scenario_A_annotations))).2.
Proof.
  assert (scenario_A_annotations ≡ₚ reverse scenario_A_annotations) as Hperm
    by (symmetry; apply reverse_Permutation).
  split; [exact Hperm|].
  apply (statistics_ignore_row_order scenario_A_posts _ _ ["p1"; "p2"] Hperm).
Defined.

(** X16.  Loading two batches of post rows one after the other: a post
    reads as in the second batch if the second batch has it, and as in the
    first batch otherwise. *)
Theorem load_full_posts_app (rows1 rows2 : list post_row) (pid : string) :
  PyDict.get pid (load_full_posts (rows1 ++ rows2))
  = match PyDict.get pid (load_full_posts rows2) with
    | Some text => Some text
    | None => PyDict.get pid (load_full_posts rows1)
    end.
Proof.
  rewrite !load_full_posts_get, filter_app, last_app.
  by destruct (last (filter _ rows2)).
Qed.

(** ** The standard deviation *)

Lemma squared_deviations_expand (xs : list Z) (c : Q) :
  (squared_deviations xs c
   == inject_Z (PyBuiltin.sum (map (λ x : Z, (x * x)%Z) xs))
      - inject_Z 2 * c * inject_Z (PyBuiltin.sum xs)
      + inject_Z (len xs) * c * c)%Q.
Proof.
  induction xs as [|x xs IH].
  - unfold len. cbn. ring.
  - cbn [squared_deviations map]. rewrite IH, !sum_cons.
    unfold len. cbn [length]. rewrite Nat2Z.inj_succ, <- Z.add_1_r.
    rewrite !inject_Z_plus, inject_Z_mult. ring.
Qed.

(** [_ss] returns the sum of the squared deviations from the mean. *)
Lemma ss_squared_deviations (xs : list Z) :
  xs ≠ [] →
  ((PyStatistics.ss xs).1 == squared_deviations xs (mean_of xs))%Q
  ∧ (PyStatistics.ss xs).2 = len xs.
Proof.
  intros Hne. unfold PyStatistics.ss. fold (len xs).
  assert (0 < len xs) as Hpos.
  { unfold len. destruct xs; [done|]. cbn [length]. lia. }
  destruct (len xs =? 0) eqn:E0; [lia|]. cbn [fst snd]. split; [|done].
  rewrite Qred_correct, squared_deviations_expand, Qmake_Qdiv.
  rewrite Z2Pos.id by done. unfold mean_of.
  rewrite <- Z.add_opp_r, inject_Z_plus, inject_Z_opp, !inject_Z_mult.
  assert (¬ (inject_Z (len xs) == 0)%Q) as Hn0.
  { intros H0. apply (inject_Z_injective (len xs) 0) in H0. lia. }
  field. exact Hn0.
Qed.

(** X17.  The standard deviation that a report holds is the int zero for
    a single post, and for more posts the float square root that
    [statistics.stdev] takes of the sample variance: the sum of the squared
    deviations of the post lengths from their mean, divided by one less
    than their number. *)
Theorem std_dev_sample (post_ids : list string) (st : store) (s : statistics) :
  (compute_statistics post_ids st).1 = Ok s →
  if 1 <? len post_ids
  then ∃ v : Q,
         std_dev_length s
           = PyFloat (PyStatistics.float_sqrt_of_frac (Qnum v) (Zpos (Qden v)))
         ∧ (v * inject_Z (len post_ids - 1)%Z
            == squared_deviations (post_lengths s) (mean_of (post_lengths s)))%Q
  else std_dev_length s = PyInt 0.
Proof.
  intros Hs%compute_statistics_inv%statistics_of_inv.
  destruct Hs as (Hlen & _ & _ & _ & _ & Hsd & _).
  apply lengths_of_length in Hlen. unfold std_dev_of in Hsd.
  destruct (1 <? len post_ids) eqn:E1; [|by injection Hsd].
  apply Z.ltb_lt in E1.
  assert (post_lengths s ≠ []) as Hne.
  { intros Hnil. rewrite Hnil in Hlen. unfold len in E1. rewrite <- Hlen in E1.
    cbn in E1. lia. }
  assert (len (post_lengths s) = len post_ids) as Hn by (unfold len; by rewrite Hlen).
  destruct (ss_squared_deviations (post_lengths s) Hne) as [Hss Hcount].
  unfold PyStatistics.stdev in Hsd.
  destruct (PyStatistics.ss (post_lengths s)) as [ssd n]. cbn [fst snd] in Hss, Hcount.
  subst n. rewrite Hn in Hsd.
  destruct (len post_ids <? 2) eqn:E2; [apply Z.ltb_lt in E2; lia|].
  cbn in Hsd. injection Hsd as <-.
  eexists. split; [reflexivity|].
  rewrite Qred_correct, <- Hss.
  assert (¬ (inject_Z (len post_ids - 1) == 0)%Q) as Hn0.
  { intros H0. apply (inject_Z_injective (len post_ids - 1) 0) in H0. lia. }
  field. exact Hn0.
Qed.

Lemma std_dev_sample_witness :
  let st := loaded scenario_A_posts scenario_A_annotations in
  ∃ s, (compute_statistics ["p1"; "p2"] st).1 = Ok s
       ∧ ∃ v : Q,
           std_dev_length s
             = PyFloat (PyStatistics.float_sqrt_of_frac (Qnum v) (Zpos (Qden v)))
           ∧ (v * inject_Z (len ["p1"; "p2"] - 1)%Z
              == squared_deviations (post_lengths s) (mean_of (post_lengths s)))%Q.
Proof.
  intros st.
  destruct (compute_statistics ["p1"; "p2"] st).1 as [s|e] eqn:Hs;
    [|vm_compute in Hs; discriminate].
  exists s. split; [reflexivity|].
  exact (std_dev_sample ["p1"; "p2"] st s Hs).
Defined.

(** ** More on the distribution block *)



(** X19.  The count that the distribution shows for a category does not
    depend on the order of the rows of the annotations file (zero standing
    for a category that is not shown); only the order of the lines can. *)
Theorem distribution_counts_ignore_row_order (rows rows' : list annotation_row)
    (c : string) :
  rows ≡ₚ rows' →
  PyDict.get_or 0 c (count_symptoms (load_annotations rows).1)
  = PyDict.get_or 0 c (count_symptoms (load_annotations rows').1).
Proof.
  intros Hperm.
  destruct (load_annotations_NoDup rows) as [Hnd _].
  destruct (load_annotations_NoDup rows') as [Hnd' _].
  rewrite !posts_with_count by done. unfold posts_with, len. f_equal.
  assert (PyDict.keys (load_annotations rows).1 ≡ₚ PyDict.keys (load_annotations rows').1)
    as Hkeys.
  { apply NoDup_Permutation; [done..|]. intros k.
    destruct (load_annotations_keys rows) as [-> _].
    destruct (load_annotations_keys rows') as [-> _].
    rewrite !elem_of_reverse, !elem_of_remove_dups, !elem_of_reverse.
    by rewrite Hperm. }
  rewrite (list_filter_iff
             (λ pid, c ∈ PyDict.get_or ∅ pid (load_annotations rows).1)
             (λ pid, c ∈ PyDict.get_or ∅ pid (load_annotations rows').1)).
  - apply Permutation_length. by rewrite Hkeys.
  - intros pid. rewrite !load_annotations_symptoms.
    assert (filter (λ r, post_id r = pid ∧ is_confirmed r) rows
            ≡ₚ filter (λ r, post_id r = pid ∧ is_confirmed r) rows') as Hf
      by (by rewrite Hperm).
    by rewrite !elem_of_list_to_set, Hf.
Qed.

Lemma distribution_counts_ignore_row_order_witness :
  tie_annotations ≡ₚ reverse tie_annotations
  ∧ PyDict.get_or 0 "FATIGUE" (count_symptoms (load_annotations tie_annotations).1)
    = PyDict.get_or 0 "FATIGUE"
        (count_symptoms (load_annotations (reverse tie_annotations)).1).
Proof.
  assert (tie_annotations ≡ₚ reverse tie_annotations) as Hperm
    by (symmetry; apply reverse_Permutation).
  split; [exact Hperm|].
  apply (distribution_counts_ignore_row_order _ _ "FATIGUE" Hperm).
Defined.

(** ** Counting words *)


